(** * EAA Growers decision-support system: carbon model, soil estimator and
      assessment workflow of [app.py]

    Numbers.  Python [int] values are modelled by [Z].  Python [float] values
    are modelled by exact rationals [Q]: every literal of the program (30.0,
    60.0, 4.6, 5.5, ...) is read as the decimal fraction it denotes and the
    arithmetic is exact, so binary64 rounding is not part of this model.
    Numeric results are compared with [Qeq] ([==]); session states, which are
    only ever copied, are compared with Leibniz equality. *)

From stdpp Require Import base list.
From Stdlib Require Import ZArith QArith Qminmax Qround Qabs Lia Lqa String List Bool.
Import ListNotations.

Local Open Scope Z_scope.
Local Open Scope Q_scope.

(** ** Python primitives used by the program *)

Module Py.

(** [a < b] on floats. *)
Definition ltb (a b : Q) : bool := (Qnum a * QDen b <? Qnum b * QDen a)%Z.
(** [a <= b] on floats. *)
Definition leb (a b : Q) : bool := Qle_bool a b.
(** [a == b] on floats (numeric equality). *)
Definition eqb (a b : Q) : bool := Qeq_bool a b.

(** The built-in [min(a, b)]: the first argument is kept unless the second
    one is strictly smaller. *)
Definition min (a b : Q) : Q := if ltb b a then b else a.

(** [int(x)] on a float: truncation toward zero. *)
Definition int (x : Q) : Z := (Qnum x ÷ QDen x)%Z.

(** [round(x, 1)]: nearest multiple of one tenth, ties to the even one. *)
Definition round_half_even (x : Q) : Z :=
  let f := Qfloor x in
  let r := x - inject_Z f in
  if ltb r (1 # 2) then f
  else if ltb (1 # 2) r then (f + 1)%Z
  else if Z.even f then f else (f + 1)%Z.
Definition round1 (x : Q) : Q := inject_Z (round_half_even (x * 10)) / 10.

(** Truthiness of a float: every value but zero. *)
Definition truthy (x : Q) : bool := negb (eqb x 0).

(** Exceptions the modelled fragment can raise. *)
Inductive exn : Set :=
| ZeroDivisionError
| TypeError
| IndexError
| KeyError
| AttributeError
| ValueAboveMax
| ValueBelowMin.

Inductive result (A : Type) : Type :=
| Ok (a : A)
| Raise (e : exn).
Arguments Ok {A} a.
Arguments Raise {A} e.

Definition bind {A B} (m : result A) (k : A -> result B) : result B :=
  match m with
  | Ok a => k a
  | Raise e => Raise e
  end.

(** [a / b] on numbers: raises on a zero divisor. *)
Definition truediv (a b : Q) : result Q :=
  if eqb b 0 then Raise ZeroDivisionError else Ok (a / b).

End Py.

Notation "'try!' x <- m ; k" := (Py.bind m (fun x => k))
  (at level 10, x name, m at level 100, k at level 200).

(** ** Crop reference data ([crop_data]) *)

Record crop_row : Type := {
  crop_name : string;
  carbon_credits : Q;   (* "Carbon Credits (tons/ha/yr)" *)
  co2_released : Q      (* "CO₂ Released (tons/ha/yr)" *)
}.

Definition crop_data : list crop_row :=
  [ {| crop_name := "Sugarcane";    carbon_credits := 675 # 100; co2_released := 342 # 100 |};
    {| crop_name := "Flooded Rice"; carbon_credits := 912 # 100; co2_released :=  40 # 100 |};
    {| crop_name := "Sweet Corn";   carbon_credits := 489 # 100; co2_released := 265 # 100 |};
    {| crop_name := "Lettuce";      carbon_credits := 321 # 100; co2_released := 192 # 100 |};
    {| crop_name := "Turf Grass";   carbon_credits := 743 # 100; co2_released := 287 # 100 |};
    {| crop_name := "Legume Mix";   carbon_credits := 538 # 100; co2_released := 175 # 100 |};
    {| crop_name := "Sunn Hemp";    carbon_credits := 827 # 100; co2_released := 148 # 100 |};
    {| crop_name := "Cowpea";       carbon_credits := 612 # 100; co2_released := 195 # 100 |} ].

Definition crop_names : list string := List.map crop_name crop_data.

(** [crop_data[crop_data["Crop"] == crop].iloc[0]["Carbon Credits (tons/ha/yr)"]]:
    the first matching row, [IndexError] when no row matches. *)
Definition base_credits_of (crop : string) : Py.result Q :=
  match List.filter (fun r => String.eqb (crop_name r) crop) crop_data with
  | r :: _ => Py.Ok (carbon_credits r)
  | [] => Py.Raise Py.IndexError
  end.

(** ** The carbon model *)

Definition depth_factor (depth_cm : Q) : Q := Py.min (depth_cm / 30) 1.
Definition som_factor (som_pct : Q) : Q := Py.min (som_pct / 60) 1.

Definition calculate_carbon_impact (base_credits farm_size depth_cm som_pct : Q) : Q :=
  let depth_factor := Py.min (depth_cm / 30) 1 in
  let som_factor := Py.min (som_pct / 60) 1 in
  base_credits * farm_size * depth_factor * som_factor.

(** The formula as the specification words it, with the mathematical minimum. *)
Definition adjusted_credits_spec (base_credits farm_size depth_cm som_pct : Q) : Q :=
  base_credits * farm_size * Qmin (depth_cm / 30) 1 * Qmin (som_pct / 60) 1.

(** [cars = (adj_credits / size / 4.6) if size > 0 else 0] *)
Definition cars_offset_per_ha (adj_credits : Q) (size : Z) : Py.result Q :=
  if (0 <? size)%Z then
    try! per_ha <- Py.truediv adj_credits (inject_Z size);
    Py.truediv per_ha (46 # 10)
  else Py.Ok 0.

(** The same expression without the conditional, for comparison. *)
Definition cars_unguarded (adj_credits : Q) (size : Z) : Py.result Q :=
  try! per_ha <- Py.truediv adj_credits (inject_Z size);
  Py.truediv per_ha (46 # 10).

(** ** Stage-3 diagnostic bands *)

Definition classify_som (som : Q) : string * string :=
  if Py.ltb som 40 then ("⚠ Low Organic Matter", "inverse")%string
  else if Py.leb 40 som && Py.leb som 70 then ("✓ Moderate Organic Matter", "normal")%string
  else ("✓ Good Organic Matter", "normal")%string.

Definition classify_ph (ph : Q) : string * string :=
  if Py.ltb ph (55 # 10) then ("⚠ Extremely Low", "inverse")%string
  else if Py.leb (55 # 10) ph && Py.ltb ph (65 # 10) then ("⚠ Low pH", "normal")%string
  else if Py.leb (65 # 10) ph && Py.leb ph (75 # 10) then ("✓ Good pH", "normal")%string
  else if Py.ltb (75 # 10) ph && Py.leb ph (85 # 10) then ("⚠ High pH", "normal")%string
  else ("⚠ Extremely High", "inverse")%string.

Definition classify_depth (depth : Z) : string * string :=
  if (depth <? 30)%Z then ("⚠ Very Low Depth", "inverse")%string
  else if ((30 <=? depth) && (depth <=? 100))%Z then ("✓ Adequate Depth", "normal")%string
  else ("✓ Very High Depth", "normal")%string.


(** ** The numpy generator used by the soil estimator

    [np.random.default_rng(seed)] builds a fresh generator object; every draw
    reads and advances the state of the generator it is called on.  The bit
    generator itself is not part of the repository, so its operations are the
    fields of [numpy_rng]; the objects live in a store of generator states
    addressed by reference. *)

Record numpy_rng : Type := {
  gen_state : Type;
  default_rng : Z -> gen_state;                              (* default_rng(seed=...) *)
  uniform : gen_state -> Q -> Q -> Q * gen_state;            (* rng.uniform(low, high) *)
  choice : gen_state -> list string -> list Q -> string * gen_state;  (* rng.choice(a, p=...) *)
  integers : gen_state -> Z -> Z -> Z * gen_state            (* rng.integers(low, high) *)
}.

Section SoilEstimator.

Variable np : numpy_rng.

Abbreviation store := (list (gen_state np)).
Abbreviation gen_ref := nat.

(** Computations over the store of generator objects; [None] is a read
    through a reference that was never allocated. *)
Definition Gen (A : Type) : Type := store -> option (A * store).

Definition gret {A} (a : A) : Gen A := fun st => Some (a, st).

Definition gbind {A B} (m : Gen A) (k : A -> Gen B) : Gen B :=
  fun st => match m st with
            | Some (a, st') => k a st'
            | None => None
            end.

Definition new_generator (seed : Z) : Gen gen_ref :=
  fun st => Some (length st, st ++ [default_rng np seed]).

Definition draw {A} (op : gen_state np -> A * gen_state np) (r : gen_ref) : Gen A :=
  fun st => match st !! r with
            | Some g => let (a, g') := op g in Some (a, <[r := g']> st)
            | None => None
            end.

(** [int((lat + lon) * 10000) % (2**31)], in exact arithmetic: where the
    program's binary64 sum or product rounds across an integer the seeds
    differ by one.  Nothing below depends on which seed a point receives. *)
Definition seed_of (lat lon : Q) : Z := (Py.int ((lat + lon) * 10000) mod 2 ^ 31)%Z.

Definition depth_categories : list string := ["shallow"; "adequate"; "deep"]%string.
Definition depth_probabilities : list Q := [4 # 10; 5 # 10; 1 # 10].

Definition predict_soil_metrics (lat lon : Q) : Gen (Q * Z) :=
  gbind (new_generator (seed_of lat lon)) (fun rng =>
  gbind (draw (fun g => uniform np g 25 85) rng) (fun u =>
  let som := Py.round1 u in
  gbind (draw (fun g => choice np g depth_categories depth_probabilities) rng)
    (fun depth_choice =>
  if String.eqb depth_choice "shallow" then
    gbind (draw (fun g => integers np g 15 30) rng) (fun depth => gret (som, depth))
  else if String.eqb depth_choice "adequate" then
    gbind (draw (fun g => integers np g 30 101) rng) (fun depth => gret (som, depth))
  else
    gbind (draw (fun g => integers np g 101 151) rng) (fun depth => gret (som, depth))))).

(** The value [predict_soil_metrics] returns, read off the generator it
    creates ([predict_soil_metrics_run] below relates the two). *)
Definition soil_metrics (lat lon : Q) : Q * Z :=
  let g0 := default_rng np (seed_of lat lon) in
  let (u, g1) := uniform np g0 25 85 in
  let som := Py.round1 u in
  let (depth_choice, g2) := choice np g1 depth_categories depth_probabilities in
  if String.eqb depth_choice "shallow" then (som, fst (integers np g2 15 30))
  else if String.eqb depth_choice "adequate" then (som, fst (integers np g2 30 101))
  else (som, fst (integers np g2 101 151)).

(** The state in which the call leaves its generator object. *)
Definition spent_generator (lat lon : Q) : gen_state np :=
  let g0 := default_rng np (seed_of lat lon) in
  let g1 := snd (uniform np g0 25 85) in
  let (depth_choice, g2) := choice np g1 depth_categories depth_probabilities in
  if String.eqb depth_choice "shallow" then snd (integers np g2 15 30)
  else if String.eqb depth_choice "adequate" then snd (integers np g2 30 101)
  else snd (integers np g2 101 151).

End SoilEstimator.

(** ** Map widget payload ([map_data]) *)

(** The [coordinates] member of a GeoJSON geometry. *)
Inductive coords : Type :=
| PolygonCoords (rings : list (list (Q * Q)))
| MultiPolygonCoords (polygons : list (list (list (Q * Q))))
| NoCoords.

Record geometry : Type := {
  geom_type : option string;     (* geometry.get("type") *)
  coordinates : coords
}.

Record drawing : Type := {
  drawing_geometry : option geometry   (* None: the feature has no "geometry" member *)
}.

Record click : Type := { lat : Q; lng : Q }.

Record map_data : Type := {
  all_drawings : list drawing;     (* None and [] are both falsy: modelled by [] *)
  last_clicked : option click
}.

(** ** Collaborators outside the repository

    Shapely, GeoPandas, the loaded boundary and Streamlit's script runner. *)
Record host : Type := {
  (** [eaa_poly.contains(Point(lon, lat))] *)
  region_contains : Q -> Q -> bool;
  (** [shape(g).centroid] as [(x, y)]; [None] when [shape] or the centroid
      access raises. *)
  shape_centroid : geometry -> option (Q * Q);
  (** Area in square metres after [to_crs("EPSG:32617")]; [None] when the
      projection raises. *)
  projected_area : geometry -> option Q;
  (** The generator behind [np.random.default_rng]. *)
  rng : numpy_rng;
  (** [st.rerun()] stops the script by raising a control exception; this
      field says whether a bare [except:] clause intercepts it. *)
  bare_except_traps_rerun : bool
}.

(** ** Session state ([st.session_state]) *)

Record session : Type := {
  step : Z;
  clicked_lat : option Q;
  clicked_lon : option Q;
  est_som : option Q;
  est_depth : option Z;
  display_ph : Q;
  display_som : option Q;
  saved_farm_size : Z;
  selected_crop : string;
  drawn_area_ha : option Q;
  selection_mode : string;
  map_key : Z
}.

Definition defaults : session := {|
  step := 1;
  clicked_lat := None;
  clicked_lon := None;
  est_som := None;
  est_depth := None;
  display_ph := 65 # 10;
  display_som := Some 0;
  saved_farm_size := 100;
  selected_crop := "Sugarcane";
  drawn_area_ha := None;
  selection_mode := "point";
  map_key := 0
|}.

Definition set_step (v : Z) (s : session) : session :=
  {| step := v; clicked_lat := clicked_lat s; clicked_lon := clicked_lon s;
     est_som := est_som s; est_depth := est_depth s; display_ph := display_ph s;
     display_som := display_som s; saved_farm_size := saved_farm_size s;
     selected_crop := selected_crop s; drawn_area_ha := drawn_area_ha s;
     selection_mode := selection_mode s; map_key := map_key s |}.

Definition set_clicked (la lo : option Q) (s : session) : session :=
  {| step := step s; clicked_lat := la; clicked_lon := lo;
     est_som := est_som s; est_depth := est_depth s; display_ph := display_ph s;
     display_som := display_som s; saved_farm_size := saved_farm_size s;
     selected_crop := selected_crop s; drawn_area_ha := drawn_area_ha s;
     selection_mode := selection_mode s; map_key := map_key s |}.

Definition set_est (som : option Q) (depth : option Z) (s : session) : session :=
  {| step := step s; clicked_lat := clicked_lat s; clicked_lon := clicked_lon s;
     est_som := som; est_depth := depth; display_ph := display_ph s;
     display_som := display_som s; saved_farm_size := saved_farm_size s;
     selected_crop := selected_crop s; drawn_area_ha := drawn_area_ha s;
     selection_mode := selection_mode s; map_key := map_key s |}.

Definition set_display (ph : Q) (som : option Q) (s : session) : session :=
  {| step := step s; clicked_lat := clicked_lat s; clicked_lon := clicked_lon s;
     est_som := est_som s; est_depth := est_depth s; display_ph := ph;
     display_som := som; saved_farm_size := saved_farm_size s;
     selected_crop := selected_crop s; drawn_area_ha := drawn_area_ha s;
     selection_mode := selection_mode s; map_key := map_key s |}.

Definition set_saved_farm_size (v : Z) (s : session) : session :=
  {| step := step s; clicked_lat := clicked_lat s; clicked_lon := clicked_lon s;
     est_som := est_som s; est_depth := est_depth s; display_ph := display_ph s;
     display_som := display_som s; saved_farm_size := v;
     selected_crop := selected_crop s; drawn_area_ha := drawn_area_ha s;
     selection_mode := selection_mode s; map_key := map_key s |}.

Definition set_selected_crop (v : string) (s : session) : session :=
  {| step := step s; clicked_lat := clicked_lat s; clicked_lon := clicked_lon s;
     est_som := est_som s; est_depth := est_depth s; display_ph := display_ph s;
     display_som := display_som s; saved_farm_size := saved_farm_size s;
     selected_crop := v; drawn_area_ha := drawn_area_ha s;
     selection_mode := selection_mode s; map_key := map_key s |}.

Definition set_drawn_area_ha (v : option Q) (s : session) : session :=
  {| step := step s; clicked_lat := clicked_lat s; clicked_lon := clicked_lon s;
     est_som := est_som s; est_depth := est_depth s; display_ph := display_ph s;
     display_som := display_som s; saved_farm_size := saved_farm_size s;
     selected_crop := selected_crop s; drawn_area_ha := v;
     selection_mode := selection_mode s; map_key := map_key s |}.

Definition set_selection_mode (v : string) (s : session) : session :=
  {| step := step s; clicked_lat := clicked_lat s; clicked_lon := clicked_lon s;
     est_som := est_som s; est_depth := est_depth s; display_ph := display_ph s;
     display_som := display_som s; saved_farm_size := saved_farm_size s;
     selected_crop := selected_crop s; drawn_area_ha := drawn_area_ha s;
     selection_mode := v; map_key := map_key s |}.

Definition set_map_key (v : Z) (s : session) : session :=
  {| step := step s; clicked_lat := clicked_lat s; clicked_lon := clicked_lon s;
     est_som := est_som s; est_depth := est_depth s; display_ph := display_ph s;
     display_som := display_som s; saved_farm_size := saved_farm_size s;
     selected_crop := selected_crop s; drawn_area_ha := drawn_area_ha s;
     selection_mode := selection_mode s; map_key := v |}.

(** [reset_survey]: every key of [defaults] but ["map_key"] is overwritten,
    then the counter is incremented. *)
Definition reset_survey (s : session) : session :=
  let s := set_map_key (map_key s) defaults in
  set_map_key (map_key s + 1) s.

(** ** One script run

    Streamlit re-executes the script on every interaction.  A run ends by
    reaching the end of the script, by [st.rerun()], or by an exception that
    reaches the script runner; writes to the session made before that point
    persist in all three cases.  Display-only calls ([st.toast],
    [st.markdown], [st.metric], ...) are not modelled. *)

Inductive outcome : Type :=
| Completed (s : session)
| Rerun (s : session)
| Crashed (e : Py.exn) (s : session).

Definition session_after (o : outcome) : session :=
  match o with
  | Completed s | Rerun s | Crashed _ s => s
  end.

(** [st.session_state.clicked_lat != lat]; [None] differs from every number. *)
Definition differs (stored : option Q) (v : Q) : bool :=
  match stored with
  | Some l => negb (Py.eqb l v)
  | None => true
  end.

(** [t in ("Polygon", "MultiPolygon")] *)
Definition is_polygon_type (t : option string) : bool :=
  match t with
  | Some t => String.eqb t "Polygon" || String.eqb t "MultiPolygon"
  | None => false
  end.

(** The geometry that enters the [try] block, if any: the last drawing, when
    its geometry is of a polygon type. *)
Definition last_polygon_geometry (md : option map_data) : option geometry :=
  match md with
  | Some md =>
      match list.last (all_drawings md) with
      | Some last_drawing =>
          match drawing_geometry last_drawing with
          | Some g => if is_polygon_type (geom_type g) then Some g else None
          | None => None
          end
      | None => None
      end
  | None => None
  end.

(** How the body of the [try] block ends: it reaches
    [drawing_processed = True], or an error is raised, or [st.rerun()] is. *)
Inductive block_end : Set := Fell_through | Raised_error | Raised_rerun.

Definition polygon_block (h : host) (s : session) (g : geometry) : block_end * session :=
  match shape_centroid h g with
  | None => (Raised_error, s)
  | Some (lon, lat) =>
      if differs (clicked_lat s) lat then
        if region_contains h lon lat then
          match projected_area h g with
          | None => (Raised_error, s)
          | Some area_m2 =>
              let area_ha := area_m2 / 10000 in
              let s := set_drawn_area_ha (Some (Py.round1 area_ha)) s in
              let s := set_clicked (Some lat) (Some lon) s in
              let s := set_selection_mode "polygon" s in
              let (som, depth) := soil_metrics (rng h) lat lon in
              let s := set_est (Some som) (Some depth) s in
              let s := set_step 2 s in
              (Raised_rerun, s)
          end
        else (Fell_through, s)
      else (Fell_through, s)
  end.

(** The [last_clicked] branch. *)
Definition handle_click (h : host) (s : session) (md : option map_data) : outcome :=
  match md with
  | Some md =>
      match last_clicked md with
      | Some c =>
          let (lat, lon) := (lat c, lng c) in
          if region_contains h lon lat then
            if differs (clicked_lat s) lat then
              let s := set_clicked (Some lat) (Some lon) s in
              let s := set_selection_mode "point" (set_drawn_area_ha None s) in
              let (som, depth) := soil_metrics (rng h) lat lon in
              let s := set_est (Some som) (Some depth) s in
              let s := set_step 2 s in
              Rerun s
            else Completed s
          else Completed s
      | None => Completed s
      end
  | None => Completed s
  end.

(** The map event handler: the drawing branch, then, unless a drawing was
    processed, the click branch.  The [try] of the drawing branch has a bare
    [except: pass], and [drawing_processed = True] is its last statement: an
    error raised while the shape is built or measured leaves the flag False,
    and so does the [st.rerun()] of an accepted polygon when the bare clause
    intercepts it. *)
Definition handle_map (h : host) (s : session) (md : option map_data) : outcome :=
  match last_polygon_geometry md with
  | Some g =>
      match polygon_block h s g with
      | (Fell_through, s) => Completed s
      | (Raised_error, s) => handle_click h s md
      | (Raised_rerun, s) =>
          if bare_except_traps_rerun h then handle_click h s md else Rerun s
      end
  | None => handle_click h s md
  end.

(** *** The payload as the widget delivers it

    The handler reads the payload through [.get] and subscripts, and three of
    these reads stand outside the [try]: [last_drawing.get("geometry", {})],
    [(...).get("type")] and [map_data["last_clicked"]["lat"]] (and ["lng"]).
    The types below give every member read there its ill-formed alternatives;
    [map_data] above is the well-formed case. *)

Inductive raw_geometry : Type :=
| GeometryAbsent                (* no "geometry" member: the default {} is used *)
| GeometryNotObject             (* null, or any other value that is not an object *)
| GeometryObject (g : geometry).

Inductive raw_drawing : Type :=
| DrawingNotObject              (* null, or any other value that is not an object *)
| DrawingObject (g : raw_geometry).

Inductive raw_coordinate : Type :=
| CoordinateAbsent                    (* the key is missing *)
| CoordinateRefused (e : Py.exn)      (* a value from which Point(lon, lat) raises e *)
| CoordinateNumber (q : Q).

Inductive raw_click : Type :=
| ClickFalsy                    (* None, a missing key, or an empty value *)
| ClickNotObject                (* a non-empty value that is not an object *)
| ClickObject (lat lng : raw_coordinate).   (* a non-empty object *)

Record raw_map_data : Type := {
  raw_all_drawings : list raw_drawing;   (* None and [] are both falsy: modelled by [] *)
  raw_last_clicked : raw_click
}.

(** Lines 200-202: the geometry that enters the [try] block, if any;
    [.get] on a value that is not an object raises [AttributeError]. *)
Definition raw_last_polygon (md : option raw_map_data) : Py.result (option geometry) :=
  match md with
  | Some md =>
      match list.last (raw_all_drawings md) with
      | Some DrawingNotObject => Py.Raise Py.AttributeError
      | Some (DrawingObject GeometryNotObject) => Py.Raise Py.AttributeError
      | Some (DrawingObject GeometryAbsent) => Py.Ok None
      | Some (DrawingObject (GeometryObject g)) =>
          Py.Ok (if is_polygon_type (geom_type g) then Some g else None)
      | None => Py.Ok None
      end
  | None => Py.Ok None
  end.

(** Lines 222-233: subscripting a value that is not an object raises
    [TypeError], a missing "lat" or "lng" raises [KeyError], and
    [Point(lon, lat)] raises on a coordinate it cannot convert (lon is
    converted first); a well-formed click is handled by [handle_click]. *)
Definition raw_handle_click (h : host) (s : session) (md : option raw_map_data)
  : outcome :=
  match md with
  | Some md =>
      match raw_last_clicked md with
      | ClickFalsy => Completed s
      | ClickNotObject => Crashed Py.TypeError s
      | ClickObject CoordinateAbsent _ => Crashed Py.KeyError s
      | ClickObject _ CoordinateAbsent => Crashed Py.KeyError s
      | ClickObject (CoordinateNumber la) (CoordinateNumber lo) =>
          handle_click h s
            (Some {| all_drawings := [];
                     last_clicked := Some {| lat := la; lng := lo |} |})
      | ClickObject _ (CoordinateRefused e) => Crashed e s
      | ClickObject (CoordinateRefused e) (CoordinateNumber _) => Crashed e s
      end
  | None => Completed s
  end.

(** The map event handler on the payload as delivered. *)
Definition handle_raw_map (h : host) (s : session) (md : option raw_map_data)
  : outcome :=
  match raw_last_polygon md with
  | Py.Raise e => Crashed e s
  | Py.Ok (Some g) =>
      match polygon_block h s g with
      | (Fell_through, s) => Completed s
      | (Raised_error, s) => raw_handle_click h s md
      | (Raised_rerun, s) =>
          if bare_except_traps_rerun h then raw_handle_click h s md else Rerun s
      end
  | Py.Ok None => raw_handle_click h s md
  end.

(** A well-formed payload, as delivered. *)
Definition raw_of (md : option map_data) : option raw_map_data :=
  match md with
  | Some md =>
      Some {| raw_all_drawings :=
                List.map (fun d => DrawingObject
                                     match drawing_geometry d with
                                     | Some g => GeometryObject g
                                     | None => GeometryAbsent
                                     end) (all_drawings md);
              raw_last_clicked :=
                match last_clicked md with
                | Some c => ClickObject (CoordinateNumber (lat c)) (CoordinateNumber (lng c))
                | None => ClickFalsy
                end |}
  | None => None
  end.

(** *** The survey column *)

Inductive button : Set := NoButton | BackButton | ForwardButton | RestartButton.

(** Values of the input widgets during one run. *)
Record widgets : Type := {
  pressed : button;
  has_test : bool;          (* radio: "Yes, I will input my data" *)
  ph_choice : string;
  som_choice : string;
  input_size : Z;           (* st.number_input *)
  recommend : bool;         (* radio: "Recommend crops for me" *)
  crop_choice : string      (* the selectbox shown for that radio value *)
}.

Definition shortlist : list string :=
  ["Flooded Rice"; "Sweet Corn"; "Sunn Hemp"; "Cowpea"]%string.

(** What the widgets guarantee about their values. *)
Definition valid_widgets (w : widgets) : Prop :=
  (1 <= input_size w <= 500000)%Z
  /\ In (crop_choice w) (if recommend w then shortlist else crop_names).

Fixpoint is_substring (k s : string) : bool :=
  String.prefix k s
  || match s with
     | EmptyString => false
     | String _ s' => is_substring k s'
     end.

Definition ph_map : list (string * Q) :=
  [("Below", 5); ("5.5", 6); ("6.5", 7); ("Above", 8)]%string.
Definition som_map : list (string * Q) :=
  [("Low", 30); ("Moderate", 55); ("High", 775 # 10)]%string.

(** [next((k for k in m if k in choice), default)] *)
Definition first_key_in (m : list (string * Q)) (choice default : string) : string :=
  match List.filter (fun kv => is_substring (fst kv) choice) m with
  | (k, _) :: _ => k
  | [] => default
  end.

(** [m[k]] *)
Definition dict_item (m : list (string * Q)) (k : string) : Py.result Q :=
  match List.filter (fun kv => String.eqb (fst kv) k) m with
  | (_, v) :: _ => Py.Ok v
  | [] => Py.Raise Py.KeyError
  end.

Definition go_to_step3 (w : widgets) (s : session) : Py.result session :=
  try! s <-
    (if has_test w then
       let pk := first_key_in ph_map (ph_choice w) "6.5" in
       let sk := first_key_in som_map (som_choice w) "Moderate" in
       try! ph <- dict_item ph_map pk;
       try! som <- dict_item som_map sk;
       Py.Ok (set_display ph (Some som) s)
     else Py.Ok (set_display (65 # 10) (est_som s) s));
  Py.Ok (set_step 3 s).

Definition navigation_buttons (w : widgets) (back_step : option Z)
    (forward_fn : option (session -> Py.result session)) (s : session) : outcome :=
  match pressed w, back_step, forward_fn with
  | BackButton, Some b, _ => Rerun (set_step b s)
  | ForwardButton, _, Some f =>
      match f s with
      | Py.Ok s' => Rerun s'
      | Py.Raise e => Crashed e s
      end
  | _, _, _ => Completed s
  end.

(** A number read where the program needs one: [None] raises [TypeError]. *)
Definition need {A} (v : option A) : Py.result A :=
  match v with
  | Some a => Py.Ok a
  | None => Py.Raise Py.TypeError
  end.

(** Stage 2 header: the polygon banner, or the coordinates with [:.4f]. *)
Definition stage2_header (s : session) : Py.result unit :=
  if String.eqb (selection_mode s) "polygon" then Py.Ok tt
  else
    try! _lat <- need (clicked_lat s);
    try! _lon <- need (clicked_lon s);
    Py.Ok tt.

(** Stage 3: the three labelled metrics. *)
Definition stage3_diagnostics (s : session)
  : Py.result ((string * string) * (string * string) * (string * string)) :=
  let som := display_som s in
  let ph := display_ph s in
  let depth := est_depth s in
  try! som <- need som;
  try! depth <- need depth;
  Py.Ok (classify_som som, classify_ph ph, classify_depth depth).

(** Stage 4: the value offered by the farm-size input. *)
Definition default_size (s : session) : Z :=
  Z.min (match drawn_area_ha s with
         | Some a => if Py.truthy a then Py.int a else saved_farm_size s
         | None => saved_farm_size s
         end) 500000.

(** [st.number_input(min_value=1, max_value=500000, value=default_size)]
    refuses a [value] outside its bounds. *)
Definition number_input_check (value : Z) : Py.result unit :=
  if (value <? 1)%Z then Py.Raise Py.ValueBelowMin
  else if (500000 <? value)%Z then Py.Raise Py.ValueAboveMax
  else Py.Ok tt.

Definition commit_plan (w : widgets) (s : session) : Py.result session :=
  let s := set_selected_crop (crop_choice w) s in
  let s := set_saved_farm_size (input_size w) s in
  Py.Ok (set_step 5 s).

(** Stage 5: adjusted credits and cars offset per hectare. *)
Definition stage5_results (s : session) : Py.result (Q * Q) :=
  let (crop, size) := (selected_crop s, saved_farm_size s) in
  try! base <- base_credits_of crop;
  try! depth <- need (est_depth s);
  try! som <- need (display_som s);
  let adj_credits := calculate_carbon_impact base (inject_Z size) (inject_Z depth) som in
  try! _loc <-
    (if String.eqb (selection_mode s) "polygon" then Py.Ok tt
     else try! _lat <- need (clicked_lat s); Py.Ok tt);
  try! cars <- cars_offset_per_ha adj_credits size;
  Py.Ok (adj_credits, cars).

Definition survey_column (w : widgets) (s : session) : outcome :=
  if (step s =? 1)%Z then Completed s
  else if (step s =? 2)%Z then
    match stage2_header s with
    | Py.Raise e => Crashed e s
    | Py.Ok _ => navigation_buttons w (Some 1%Z) (Some (go_to_step3 w)) s
    end
  else if (step s =? 3)%Z then
    match stage3_diagnostics s with
    | Py.Raise e => Crashed e s
    | Py.Ok _ => navigation_buttons w (Some 2%Z) (Some (fun s => Py.Ok (set_step 4 s))) s
    end
  else if (step s =? 4)%Z then
    match number_input_check (default_size s) with
    | Py.Raise e => Crashed e s
    | Py.Ok _ => navigation_buttons w (Some 3%Z) (Some (commit_plan w)) s
    end
  else if (step s =? 5)%Z then
    match stage5_results s with
    | Py.Raise e => Crashed e s
    | Py.Ok _ =>
        match pressed w with
        | RestartButton => Rerun (reset_survey s)
        | _ => Completed s
        end
    end
  else Completed s.

Definition script_run (h : host) (s : session) (md : option map_data) (w : widgets)
  : outcome :=
  match handle_map h s md with
  | Completed s => survey_column w s
  | o => o
  end.

(** Sessions the program can be in: the initial one, and the one left by a
    run from a reachable session. *)
Inductive reachable (h : host) : session -> Prop :=
| reachable_init : reachable h defaults
| reachable_run s md w :
    reachable h s -> valid_widgets w ->
    reachable h (session_after (script_run h s md w)).

(** One script run on the payload as delivered. *)
Definition script_run_raw (h : host) (s : session) (md : option raw_map_data)
    (w : widgets) : outcome :=
  match handle_raw_map h s md with
  | Completed s => survey_column w s
  | o => o
  end.

(** ** A concrete host, for evaluating the program on explicit inputs

    The region is the box 81W..80W, 26N..27N.  Shapes are read from the
    exterior ring of a Polygon: a ring of fewer than four positions is
    refused, the centroid is the mean of the ring's corners and the area is
    the shoelace area at 10^10 square metres per square degree (both exact
    for the axis-parallel rectangles used below).  The generator is a linear
    congruential one. *)

Module Demo.

Definition lcg_next (g : Z) : Z := ((g * 1103515245 + 12345) mod 2 ^ 31)%Z.

Fixpoint pick (items : list string) (p : list Q) (x : Q) : string :=
  match items, p with
  | [i], _ => i
  | i :: items', pi :: p' => if Py.ltb x pi then i else pick items' p' (x - pi)
  | i :: _, [] => i
  | [], _ => ""
  end.

Definition lcg : numpy_rng := {|
  gen_state := Z;
  default_rng := fun seed => seed;
  uniform := fun g lo hi =>
    let g' := lcg_next g in (lo + (hi - lo) * (g' # 2147483648), g');
  choice := fun g items p =>
    let g' := lcg_next g in (pick items p (g' # 2147483648), g');
  integers := fun g lo hi =>
    let g' := lcg_next g in ((lo + g' mod (hi - lo))%Z, g')
|}.

Definition in_box (lon lat : Q) : bool :=
  Py.leb (-81) lon && Py.leb lon (-80) && Py.leb 26 lat && Py.leb lat 27.

Definition exterior (g : geometry) : option (list (Q * Q)) :=
  match coordinates g with
  | PolygonCoords (ring :: _) =>
      if (length ring <? 4)%nat then None else Some ring
  | _ => None
  end.

Definition mean (l : list Q) : Q :=
  fold_right Qplus 0 l / inject_Z (Z.of_nat (length l)).

Definition ring_centroid (g : geometry) : option (Q * Q) :=
  match exterior g with
  | Some ring =>
      let corners := removelast ring in
      Some (Qred (mean (List.map fst corners)), Qred (mean (List.map snd corners)))
  | None => None
  end.

Fixpoint shoelace (ring : list (Q * Q)) : Q :=
  match ring with
  | (x1, y1) :: (((x2, y2) :: _) as rest) => (x1 * y2 - x2 * y1) + shoelace rest
  | _ => 0
  end.

Definition ring_area (g : geometry) : option Q :=
  match exterior g with
  | Some ring => Some (Qred (Qabs (shoelace ring) / 2 * 10000000000))
  | None => None
  end.

Definition box_host (traps : bool) : host := {|
  region_contains := in_box;
  shape_centroid := ring_centroid;
  projected_area := ring_area;
  rng := lcg;
  bare_except_traps_rerun := traps
|}.

Definition rectangle (west south east north : Q) : geometry := {|
  geom_type := Some "Polygon"%string;
  coordinates := PolygonCoords
    [[(west, south); (east, south); (east, north); (west, north); (west, south)]]
|}.

(** A field of 12.7 ha inside the region, one of 0.4 ha inside the region,
    a rectangle outside the region, and a ring of two positions. *)
Definition field_12_7ha : geometry :=
  rectangle (-807 # 10) (266 # 10) (-8069873 # 100000) (2661 # 100).
Definition field_0_4ha : geometry :=
  rectangle (-807 # 10) (266 # 10) (-8069996 # 100000) (2661 # 100).

Definition drawn (g : geometry) (c : option click) : option map_data :=
  Some {| all_drawings := [ {| drawing_geometry := Some g |} ]; last_clicked := c |}.
Definition clicked (la lo : Q) : option map_data :=
  Some {| all_drawings := []; last_clicked := Some {| lat := la; lng := lo |} |}.

Definition idle : widgets := {|
  pressed := NoButton; has_test := false; ph_choice := ""; som_choice := "";
  input_size := 100; recommend := false; crop_choice := "Sugarcane"
|}.
Definition press (b : button) : widgets := {|
  pressed := b; has_test := false; ph_choice := ""; som_choice := "";
  input_size := 100; recommend := false; crop_choice := "Sugarcane"
|}.

(** Runs the script once per input, from the given session. *)
Fixpoint play (h : host) (s : session) (inputs : list (option map_data * widgets))
  : session :=
  match inputs with
  | [] => s
  | (md, w) :: rest => play h (session_after (script_run h s md w)) rest
  end.

End Demo.


(** ** Management protocols ([get_crop_recommendations]) *)

Definition recs : list (string * list string) :=
  [ ("Sugarcane",
      [ "🟢 **Rotate with Flooded Rice** → Rice as a cover crop retains soil moisture and organic matter, reducing emissions by ~2.5 tons CO₂/ha per year.";
        "⏳ **Use Fallow Periods** → Keeping fields submerged for 3–4 months before replanting slows organic matter breakdown.";
        "🛑 **Limit Ratoon Cycles to 2** → More ratoons accelerate soil organic matter depletion.";
        "🍂 **Mulch with Sugarcane Residue** → Incorporating trash adds ~1.2 tons of carbon/ha per year." ]);
    ("Flooded Rice",
      [ "🔄 **Rotate with Sugarcane** → Maintains soil health and reduces subsidence by ~3.2 tons CO₂/ha per year.";
        "🛑 **Limit Sugarcane Ratoon Cycles to 2** → Prolonged ratooning leads to excessive soil depletion.";
        "🌾 **Mulch with Sugarcane Residue** → Leftover biomass adds ~1.5 tons of carbon/ha." ]);
    ("Sweet Corn",
      [ "🌱 **Rotate with Legume Cover Crops** → Sunn Hemp or Cowpea fixes nitrogen, saving ~1.5 tons CO₂/ha.";
        "🚜 **Use Minimum Tillage** → Reducing disturbance preserves organic matter.";
        "🌽 **Incorporate Crop Residue** → Leaving corn stalks improves structure and adds ~0.9 tons of carbon/ha." ]);
    ("Lettuce",
      [ "💧 **Rotate with Flooded Rice** → Stabilizes soil moisture and reduces CO₂ loss by ~1 ton/ha.";
        "🥬 **Use Cover Crops** → Sunn Hemp or Ryegrass adds ~1.1 tons of carbon/ha.";
        "🚰 **Drip Irrigation** → Reduces water loss and lowers emissions by ~15%.";
        "🚜 **Minimize Tillage** → Prevents carbon loss and slows organic matter breakdown." ]) ]%string.

Definition cover_crops : list string :=
  [ "Legume Mix";    "Sunn Hemp";    "Cowpea" ]%string.

(** [crop in cover_crops] is tested first; then [recs.get(crop, default)]. *)
Definition get_crop_recommendations (crop : string) : list string :=
  if existsb (String.eqb crop) cover_crops then
    [ "⚡ **Use Before Sugarcane** → Fixes nitrogen, reducing synthetic fertilizer need by ~30%.";
      "🌼 **Incorporate Before Flowering** → Maximizes nitrogen release into soil.";
      "💧 **Manage Water Table** → High moisture levels further slow CO₂ loss.";
      "📈 **Increase Organic Matter** → Boosts microbial activity and reduces fertilizer dependency." ]%string
  else
    match List.find (fun kv => String.eqb (fst kv) crop) recs with
    | Some (_, protocols) => protocols
    | None =>
        [ "💧 **Manage Water Table** → Keeping soil moisture levels high slows organic matter oxidation." ]%string
    end.

(** ** Further parts of the survey column *)

(** Stage 3: [if depth < 30 or som < 40] shows the soil alert. *)
Definition soil_alert (som : Q) (depth : Z) : bool :=
  (depth <? 30)%Z || Py.ltb som 40.

(** The options of the two stage-2 select boxes. *)
Definition ph_options : list string :=
  [ "Acidic (Below 5.5)"; "Slightly Acidic (5.5–6.5)";
    "Neutral (6.5–7.5)"; "Alkaline (Above 7.5)" ]%string.
Definition som_options : list string :=
  [ "Low (Below 40%)"; "Moderate (40%–70%)"; "High (Above 70%)" ]%string.

(** The midpoint and the stage-3 band that each option stands for, in the
    order of the options. *)
Definition ph_midpoints : list Q := [5; 6; 7; 8].
Definition som_midpoints : list Q := [30; 55; 775 # 10].
Definition ph_bands : list string :=
  [ "⚠ Extremely Low"; "⚠ Low pH"; "✓ Good pH"; "⚠ High pH" ]%string.
Definition som_bands : list string :=
  [ "⚠ Low Organic Matter"; "✓ Moderate Organic Matter"; "✓ Good Organic Matter" ]%string.

(** ** Vocabulary of the properties *)

(** What the program relies on from the generator: [uniform] stays between
    its bounds and [integers] in the half-open range. *)
Record rng_contract (np : numpy_rng) : Prop := {
  uniform_range : forall g lo hi, lo <= hi ->
    lo <= fst (uniform np g lo hi) /\ fst (uniform np g lo hi) <= hi;
  integers_range : forall g lo hi, (lo < hi)%Z ->
    (lo <= fst (integers np g lo hi) < hi)%Z
}.

(** The stored selection and what was derived from it agree. *)
Record coherent (h : host) (s : session) : Prop := {
  coh_selection :
    (clicked_lat s = None /\ clicked_lon s = None
     /\ est_som s = None /\ est_depth s = None)
    \/ (exists la lo,
          clicked_lat s = Some la /\ clicked_lon s = Some lo
          /\ region_contains h lo la = true
          /\ est_som s = Some (fst (soil_metrics (rng h) la lo))
          /\ est_depth s = Some (snd (soil_metrics (rng h) la lo)));
  coh_mode :
    (selection_mode s = "point"%string /\ drawn_area_ha s = None)
    \/ (selection_mode s = "polygon"%string /\ is_Some (drawn_area_ha s));
  coh_display :
    (3 <= step s)%Z ->
    (display_ph s = 65 # 10 /\ display_som s = est_som s)
    \/ (In (display_ph s) [5; 6; 7; 8]
        /\ In (display_som s) [Some 30; Some 55; Some (775 # 10)]);
  coh_key : (0 <= map_key s)%Z
}.

(** What every run preserves. *)
Record invariant (s : session) : Prop := {
  inv_step : (1 <= step s <= 5)%Z;
  inv_located :
    (2 <= step s)%Z ->
    is_Some (clicked_lat s) /\ is_Some (clicked_lon s)
    /\ is_Some (est_som s) /\ is_Some (est_depth s);
  inv_display : is_Some (display_som s);
  inv_size : (1 <= saved_farm_size s <= 500000)%Z;
  inv_crop : In (selected_crop s) crop_names
}.

(** The session left by an accepted click at (lat, lon). *)
Definition click_selected (h : host) (lat lon : Q) (s : session) : session :=
  let (som, depth) := soil_metrics (rng h) lat lon in
  set_step 2
    (set_est (Some som) (Some depth)
       (set_selection_mode "point"
          (set_drawn_area_ha None (set_clicked (Some lat) (Some lon) s)))).

(** The session left by an accepted polygon of centroid (lat, lon) and
    projected area [area_m2]. *)
Definition polygon_selected (h : host) (lat lon area_m2 : Q) (s : session) : session :=
  let (som, depth) := soil_metrics (rng h) lat lon in
  set_step 2
    (set_est (Some som) (Some depth)
       (set_selection_mode "polygon"
          (set_clicked (Some lat) (Some lon)
             (set_drawn_area_ha (Some (Py.round1 (area_m2 / 10000))) s)))).

(** Two sessions agree on everything the map handler does not write. *)
Definition same_survey_fields (s s' : session) : Prop :=
  display_ph s' = display_ph s /\ display_som s' = display_som s
  /\ saved_farm_size s' = saved_farm_size s /\ selected_crop s' = selected_crop s
  /\ map_key s' = map_key s.

(** Two sessions agree on everything the survey column does not write
    before a restart. *)
Definition same_selection_fields (s s' : session) : Prop :=
  clicked_lat s' = clicked_lat s /\ clicked_lon s' = clicked_lon s
  /\ est_som s' = est_som s /\ est_depth s' = est_depth s
  /\ drawn_area_ha s' = drawn_area_ha s /\ selection_mode s' = selection_mode s
  /\ map_key s' = map_key s.

(** The clicked point of a payload, as (lon, lat). *)
Definition click_point (md : option map_data) : option (Q * Q) :=
  match md with
  | Some md =>
      match last_clicked md with
      | Some c => Some (lng c, lat c)
      | None => None
      end
  | None => None
  end.

(** A payload carries a malformed drawing when its last drawing is of a
    polygon type and no shape can be built from it. *)
Definition malformed_drawing (h : host) (md : option map_data) : bool :=
  match last_polygon_geometry md with
  | Some g =>
      match shape_centroid h g with
      | Some _ => false
      | None => true
      end
  | None => false
  end.

(** The representative point of a payload, as (lon, lat): the centroid of the
    drawn polygon when there is one that parses, the clicked point otherwise. *)
Definition representative (h : host) (md : option map_data) : option (Q * Q) :=
  match last_polygon_geometry md with
  | Some g =>
      match shape_centroid h g with
      | Some p => Some p
      | None => click_point md
      end
  | None => click_point md
  end.








(** Every member the handler reads outside the [try] has the expected
    shape: the last drawing is an object whose geometry is absent or an
    object, and the click is falsy or an object with two numbers. *)
Definition raw_well_shaped (md : option raw_map_data) : bool :=
  match md with
  | Some md =>
      match list.last (raw_all_drawings md) with
      | Some DrawingNotObject | Some (DrawingObject GeometryNotObject) => false
      | _ => true
      end
      && match raw_last_clicked md with
         | ClickFalsy | ClickObject (CoordinateNumber _) (CoordinateNumber _) => true
         | _ => false
         end
  | None => true
  end.

(** The well-formed part of a delivered payload: the last drawing when it
    and its geometry are objects, the click when it has two numbers. *)
Definition typed_of (md : option raw_map_data) : option map_data :=
  match md with
  | Some md =>
      match list.last (raw_all_drawings md) with
      | Some DrawingNotObject | Some (DrawingObject GeometryNotObject) => None
      | last_drawing =>
          Some {| all_drawings :=
                    match last_drawing with
                    | Some (DrawingObject (GeometryObject g)) =>
                        [ {| drawing_geometry := Some g |} ]
                    | _ => []
                    end;
                  last_clicked :=
                    match raw_last_clicked md with
                    | ClickObject (CoordinateNumber la) (CoordinateNumber lo) =>
                        Some {| lat := la; lng := lo |}
                    | _ => None
                    end |}
      end
  | None => None
  end.

(** A point selection followed by three presses of the forward button. *)
Definition to_stage5 : list (option map_data * widgets) :=
  [ (Demo.clicked (266 # 10) (-807 # 10), Demo.idle);
    (None, Demo.press ForwardButton);
    (None, Demo.press ForwardButton);
    (None, Demo.press ForwardButton) ].

(** The claim about the stage-4 default as the specification words it: the
    default is the drawn area when there is one and the saved size otherwise,
    and lies in [1, 500000]. *)
Definition default_size_as_specified (s : session) : Prop :=
  match drawn_area_ha s with
  | Some a => inject_Z (default_size s) == a
  | None => default_size s = saved_farm_size s
  end
  /\ (1 <= default_size s <= 500000)%Z.

(** A drawn field followed by two presses of the forward button. *)
Definition draw_to_stage4 (g : geometry) : list (option map_data * widgets) :=
  [ (Demo.drawn g None, Demo.idle);
    (None, Demo.press ForwardButton);
    (None, Demo.press ForwardButton) ].

(** * Properties *)

(** ** Facts about the Python primitives *)

Module PyFacts.
Import Py.

Lemma ltb_spec a b : reflect (a < b) (ltb a b).
Proof. unfold ltb, Qlt. apply Z.ltb_spec0. Qed.

Lemma leb_spec a b : reflect (a <= b) (leb a b).
Proof.
  unfold leb. destruct (Qle_bool a b) eqn:E; constructor.
  - now apply Qle_bool_iff.
  - intro H. apply Qle_bool_iff in H. congruence.
Qed.

Lemma eqb_spec a b : reflect (a == b) (eqb a b).
Proof.
  unfold eqb. destruct (Qeq_bool a b) eqn:E; constructor.
  - now apply Qeq_bool_iff.
  - intro H. apply Qeq_bool_iff in H. congruence.
Qed.

Lemma min_le_l a b : min a b <= a.
Proof. unfold min. destruct (ltb_spec b a); lra. Qed.

Lemma min_le_r a b : min a b <= b.
Proof. unfold min. destruct (ltb_spec b a); lra. Qed.

Lemma min_glb a b c : c <= a -> c <= b -> c <= min a b.
Proof. unfold min. destruct (ltb_spec b a); lra. Qed.

Lemma min_mono a a' b : a <= a' -> min a b <= min a' b.
Proof.
  intros H. apply min_glb.
  - apply Qle_trans with a; [apply min_le_l | exact H].
  - apply min_le_r.
Qed.

Lemma min_saturated a b : b <= a -> min a b == b.
Proof. unfold min. destruct (ltb_spec b a); lra. Qed.

Lemma min_nonneg a b : 0 <= a -> 0 <= b -> 0 <= min a b.
Proof. apply min_glb. Qed.

(** The built-in agrees with the library minimum of the rationals. *)
Lemma min_Qmin a b : min a b = Qmin a b.
Proof.
  unfold min, Qmin, GenericMinMax.gmin.
  destruct (ltb_spec b a) as [H | H].
  - apply Qgt_alt in H. now rewrite H.
  - destruct (a ?= b) eqn:E; try reflexivity.
    apply Qgt_alt in E. contradiction.
Qed.

End PyFacts.

(** ** The carbon model *)

Lemma calculate_carbon_impact_factors b f d s :
  calculate_carbon_impact b f d s = b * f * depth_factor d * som_factor s.
Proof. reflexivity. Qed.

(** C1. For every base_credits, farm_size, depth_cm and som_pct,
    [calculate_carbon_impact] returns
    base_credits * farm_size * min(depth_cm / 30, 1) * min(som_pct / 60, 1),
    where [min] is the minimum of the two numbers. *)
Theorem calculate_carbon_impact_formula (base_credits farm_size depth_cm som_pct : Q) :
  calculate_carbon_impact base_credits farm_size depth_cm som_pct
  = adjusted_credits_spec base_credits farm_size depth_cm som_pct.
Proof.
  unfold calculate_carbon_impact, adjusted_credits_spec.
  now rewrite !PyFacts.min_Qmin.
Qed.

Lemma div_const_nonneg x (c : positive) : 0 <= x -> 0 <= x / (Zpos c # 1).
Proof.
  intros H. unfold Qdiv. apply Qmult_le_0_compat; [assumption | discriminate].
Qed.

Lemma div_const_mono x y (c : positive) : x <= y -> x / (Zpos c # 1) <= y / (Zpos c # 1).
Proof.
  intros H. unfold Qdiv. apply Qmult_le_compat_r; [assumption | discriminate].
Qed.

Lemma div_const_ge_1 x (c : positive) : (Zpos c # 1) <= x -> 1 <= x / (Zpos c # 1).
Proof.
  intros H. apply Qle_shift_div_l; [reflexivity | now rewrite Qmult_1_l].
Qed.

Lemma depth_factor_nonneg d : 0 <= d -> 0 <= depth_factor d.
Proof.
  intros H. apply PyFacts.min_nonneg; [now apply div_const_nonneg | discriminate].
Qed.

Lemma som_factor_nonneg s : 0 <= s -> 0 <= som_factor s.
Proof.
  intros H. apply PyFacts.min_nonneg; [now apply div_const_nonneg | discriminate].
Qed.

Lemma depth_factor_mono d d' : d <= d' -> depth_factor d <= depth_factor d'.
Proof. intros H. apply PyFacts.min_mono. now apply div_const_mono. Qed.

Lemma som_factor_mono s s' : s <= s' -> som_factor s <= som_factor s'.
Proof. intros H. apply PyFacts.min_mono. now apply div_const_mono. Qed.

Lemma depth_factor_saturated d : 30 <= d -> depth_factor d == 1.
Proof. intros H. apply PyFacts.min_saturated. now apply div_const_ge_1. Qed.

Lemma som_factor_saturated s : 60 <= s -> som_factor s == 1.
Proof. intros H. apply PyFacts.min_saturated. now apply div_const_ge_1. Qed.

(** Every base coefficient of the crop table is positive. *)
Lemma crop_data_credits_positive r : In r crop_data -> 0 < carbon_credits r.
Proof.
  unfold crop_data. cbn [In].
  intros H; repeat (destruct H as [<- | H]; [reflexivity |]); destruct H.
Qed.

Lemma depth_factor_pos d : 0 < d -> 0 < depth_factor d.
Proof.
  intros H. unfold depth_factor, Py.min.
  destruct (Py.ltb 1 (d / 30)); [reflexivity |].
  apply Qlt_shift_div_l; [reflexivity | now rewrite Qmult_0_l].
Qed.

Lemma som_factor_pos s : 0 < s -> 0 < som_factor s.
Proof.
  intros H. unfold som_factor, Py.min.
  destruct (Py.ltb 1 (s / 60)); [reflexivity |].
  apply Qlt_shift_div_l; [reflexivity | now rewrite Qmult_0_l].
Qed.

Lemma min_strict a a' b : a < a' -> a' <= b -> Py.min a b < Py.min a' b.
Proof.
  intros Hlt Hle. unfold Py.min.
  destruct (PyFacts.ltb_spec b a), (PyFacts.ltb_spec b a'); lra.
Qed.

Lemma depth_factor_strict d d' : d < d' -> d' <= 30 -> depth_factor d < depth_factor d'.
Proof.
  intros Hlt Hle. apply min_strict.
  - unfold Qdiv. apply Qmult_lt_compat_r; [reflexivity | exact Hlt].
  - apply Qle_shift_div_r; [reflexivity | now rewrite Qmult_1_l].
Qed.

Lemma som_factor_strict s s' : s < s' -> s' <= 60 -> som_factor s < som_factor s'.
Proof.
  intros Hlt Hle. apply min_strict.
  - unfold Qdiv. apply Qmult_lt_compat_r; [reflexivity | exact Hlt].
  - apply Qle_shift_div_r; [reflexivity | now rewrite Qmult_1_l].
Qed.

Lemma product_strict_r x u v v' : 0 < x -> 0 < u -> v < v' -> x * u * v < x * u * v'.
Proof.
  intros Hx Hu Hv. assert (0 < x * u) by now apply Qmult_lt_0_compat.
  rewrite !(Qmult_comm (x * u)). now apply Qmult_lt_compat_r.
Qed.

(** C4. On non-negative inputs [calculate_carbon_impact] is non-decreasing in
    farm_size, in depth_cm and in som_pct; it does not depend on depth_cm
    once depth_cm >= 30, nor on som_pct once som_pct >= 60; the depth factor
    is below 1 at 29 and equal to 1 at 30 and at 150.  The factors are those
    of the function: its result is base * size * depth factor * organic-matter
    factor, so that on positive inputs the result at depth 29 is strictly
    below the result at depth 30, which is the result at depth 150, and the
    function increases strictly in farm_size, in depth_cm up to 30 and in
    som_pct up to 60. *)
Theorem calculate_carbon_impact_monotone :
  (forall b f f' d s, 0 <= b -> 0 <= d -> 0 <= s -> f <= f' ->
     calculate_carbon_impact b f d s <= calculate_carbon_impact b f' d s)
  /\ (forall b f d d' s, 0 <= b -> 0 <= f -> 0 <= s -> d <= d' ->
     calculate_carbon_impact b f d s <= calculate_carbon_impact b f d' s)
  /\ (forall b f d s s', 0 <= b -> 0 <= f -> 0 <= d -> s <= s' ->
     calculate_carbon_impact b f d s <= calculate_carbon_impact b f d s')
  /\ (forall b f d d' s, 30 <= d -> 30 <= d' ->
     calculate_carbon_impact b f d s == calculate_carbon_impact b f d' s)
  /\ (forall b f d s s', 60 <= s -> 60 <= s' ->
     calculate_carbon_impact b f d s == calculate_carbon_impact b f d s')
  /\ depth_factor 29 < 1 /\ depth_factor 30 == 1 /\ depth_factor 150 == 1
  /\ (forall b f d s,
     calculate_carbon_impact b f d s == b * f * depth_factor d * som_factor s)
  /\ (forall b f s, 0 < b -> 0 < f -> 0 < s ->
     calculate_carbon_impact b f 29 s < calculate_carbon_impact b f 30 s
     /\ calculate_carbon_impact b f 30 s == calculate_carbon_impact b f 150 s
     /\ calculate_carbon_impact b f 30 s == b * f * som_factor s)
  /\ (forall b f f' d s, 0 < b -> 0 < d -> 0 < s -> f < f' ->
     calculate_carbon_impact b f d s < calculate_carbon_impact b f' d s)
  /\ (forall b f d d' s, 0 < b -> 0 < f -> 0 < s -> d < d' -> d' <= 30 ->
     calculate_carbon_impact b f d s < calculate_carbon_impact b f d' s)
  /\ (forall b f d s s', 0 < b -> 0 < f -> 0 < d -> s < s' -> s' <= 60 ->
     calculate_carbon_impact b f d s < calculate_carbon_impact b f d s').
Proof.
  split; [| split; [| split; [| split; [| split]]]].
  - intros b f f' d s Hb Hd Hs Hf. rewrite !calculate_carbon_impact_factors.
    pose proof (depth_factor_nonneg d Hd). pose proof (som_factor_nonneg s Hs).
    apply Qmult_le_compat_r; [| assumption].
    apply Qmult_le_compat_r; [| assumption].
    rewrite !(Qmult_comm b). apply Qmult_le_compat_r; assumption.
  - intros b f d d' s Hb Hf Hs Hd. rewrite !calculate_carbon_impact_factors.
    pose proof (depth_factor_mono d d' Hd). pose proof (som_factor_nonneg s Hs).
    apply Qmult_le_compat_r; [| assumption].
    rewrite !(Qmult_comm (b * f)). apply Qmult_le_compat_r; [assumption |].
    apply Qmult_le_0_compat; assumption.
  - intros b f d s s' Hb Hf Hd Hs. rewrite !calculate_carbon_impact_factors.
    pose proof (som_factor_mono s s' Hs). pose proof (depth_factor_nonneg d Hd).
    rewrite !(Qmult_comm (b * f * depth_factor d)).
    apply Qmult_le_compat_r; [assumption |].
    apply Qmult_le_0_compat; [apply Qmult_le_0_compat |]; assumption.
  - intros b f d d' s Hd Hd'. rewrite !calculate_carbon_impact_factors.
    rewrite (depth_factor_saturated d), (depth_factor_saturated d') by assumption.
    reflexivity.
  - intros b f d s s' Hs Hs'. rewrite !calculate_carbon_impact_factors.
    rewrite (som_factor_saturated s), (som_factor_saturated s') by assumption.
    reflexivity.
  - split; [reflexivity |]. split; [reflexivity |]. split; [reflexivity |].
    split; [intros; now rewrite calculate_carbon_impact_factors |].
    split; [| split; [| split]].
    + intros b f s Hb Hf Hs. rewrite !calculate_carbon_impact_factors.
      pose proof (som_factor_pos s Hs) as Hsf.
      assert (Hbf : 0 < b * f) by now apply Qmult_lt_0_compat.
      assert (E30 : depth_factor 30 == 1) by reflexivity.
      assert (E150 : depth_factor 150 == 1) by reflexivity.
      assert (L29 : depth_factor 29 < 1) by reflexivity.
      rewrite E30, E150. split; [| split; [reflexivity | ring]].
      apply Qmult_lt_compat_r; [exact Hsf |].
      rewrite !(Qmult_comm (b * f)). now apply Qmult_lt_compat_r.
    + intros b f f' d s Hb Hd Hs Hf. rewrite !calculate_carbon_impact_factors.
      pose proof (depth_factor_pos d Hd). pose proof (som_factor_pos s Hs).
      apply Qmult_lt_compat_r; [assumption |].
      apply Qmult_lt_compat_r; [assumption |].
      rewrite !(Qmult_comm b). now apply Qmult_lt_compat_r.
    + intros b f d d' s Hb Hf Hs Hd Hd'. rewrite !calculate_carbon_impact_factors.
      pose proof (depth_factor_strict d d' Hd Hd'). pose proof (som_factor_pos s Hs).
      apply Qmult_lt_compat_r; [assumption |].
      assert (0 < b * f) by now apply Qmult_lt_0_compat.
      rewrite !(Qmult_comm (b * f)). now apply Qmult_lt_compat_r.
    + intros b f d s s' Hb Hf Hd Hs Hs'. rewrite !calculate_carbon_impact_factors.
      pose proof (som_factor_strict s s' Hs Hs'). pose proof (depth_factor_pos d Hd).
      now apply product_strict_r; [apply Qmult_lt_0_compat | |].
Qed.

Lemma calculate_carbon_impact_monotone_witness :
  calculate_carbon_impact (675 # 100) 100 20 45 <= calculate_carbon_impact (675 # 100) 250 20 45
  /\ calculate_carbon_impact (675 # 100) 100 20 45 <= calculate_carbon_impact (675 # 100) 100 29 45
  /\ calculate_carbon_impact (675 # 100) 100 20 45 <= calculate_carbon_impact (675 # 100) 100 20 59
  /\ calculate_carbon_impact (675 # 100) 100 30 45 == calculate_carbon_impact (675 # 100) 100 150 45
  /\ calculate_carbon_impact (675 # 100) 100 20 60 == calculate_carbon_impact (675 # 100) 100 20 85
  /\ calculate_carbon_impact (675 # 100) 100 29 45 < calculate_carbon_impact (675 # 100) 100 30 45
  /\ calculate_carbon_impact (675 # 100) 100 20 45 < calculate_carbon_impact (675 # 100) 250 20 45
  /\ calculate_carbon_impact (675 # 100) 100 20 45 < calculate_carbon_impact (675 # 100) 100 29 45
  /\ calculate_carbon_impact (675 # 100) 100 20 45 < calculate_carbon_impact (675 # 100) 100 20 59.
Proof.
  destruct calculate_carbon_impact_monotone
    as (Hf & Hd & Hs & Cd & Cs & _ & _ & _ & _ & H29 & Sf & Sd & Ss).
  split; [apply Hf; unfold Qle; simpl; lia |].
  split; [apply Hd; unfold Qle; simpl; lia |].
  split; [apply Hs; unfold Qle; simpl; lia |].
  split; [apply Cd; unfold Qle; simpl; lia |].
  split; [apply Cs; unfold Qle; simpl; lia |].
  split; [apply (H29 (675 # 100) 100 45); reflexivity |].
  split; [apply Sf; reflexivity |].
  split; [apply Sd; (reflexivity || (unfold Qle; simpl; lia)) |].
  apply Ss; (reflexivity || (unfold Qle; simpl; lia)).
Defined.

(** Scenario A of the specification: Sugarcane, 100 ha, depth 100, organic
    matter 60. *)
Example scenario_A :
  base_credits_of "Sugarcane" = Py.Ok (675 # 100)
  /\ calculate_carbon_impact (675 # 100) 100 100 60 == 675.
Proof. split; reflexivity. Qed.

Lemma inject_Z_eqb_0 z : (0 < z)%Z -> Py.eqb (inject_Z z) 0 = false.
Proof.
  intros H. destruct (PyFacts.eqb_spec (inject_Z z) 0) as [E | E]; [| reflexivity].
  unfold Qeq in E. simpl in E. lia.
Qed.

(** C5. The cars-offset figure is adj_credits / size / 4.6 whenever size > 0,
    and is 0, with no exception raised, when size is 0. *)
Theorem cars_offset_per_ha_guarded (adj_credits : Q) :
  (forall size, (0 < size)%Z ->
     cars_offset_per_ha adj_credits size
     = Py.Ok (adj_credits / inject_Z size / (46 # 10)))
  /\ cars_offset_per_ha adj_credits 0 = Py.Ok 0.
Proof.
  split; [| reflexivity].
  intros size H. unfold cars_offset_per_ha, Py.truediv.
  apply Z.ltb_lt in H as H'. rewrite H'.
  rewrite (inject_Z_eqb_0 size H). reflexivity.
Qed.

Lemma cars_offset_per_ha_guarded_witness :
  cars_offset_per_ha 675 100 = Py.Ok (675 / inject_Z 100 / (46 # 10)).
Proof. apply (proj1 (cars_offset_per_ha_guarded 675) 100%Z). reflexivity. Defined.

(** Without the conditional the same expression raises at size 0. *)
Lemma cars_unguarded_raises adj_credits :
  cars_unguarded adj_credits 0 = Py.Raise Py.ZeroDivisionError.
Proof. reflexivity. Qed.

(** ** Diagnostic bands *)

(** C6. Stage 3 labels organic matter 35 as Low, 55 as Moderate and 75 as
    Good, and pH 5.0 as Extremely Low, 6.0 as Low pH, 7.0 as Good pH, 8.0 as
    High pH and 9.0 as Extremely High (each label carries the program's
    leading status mark, and the organic-matter ones end in "Organic
    Matter"). *)
Theorem diagnostic_bands :
  fst (classify_som 35) = "⚠ Low Organic Matter"%string
  /\ fst (classify_som 55) = "✓ Moderate Organic Matter"%string
  /\ fst (classify_som 75) = "✓ Good Organic Matter"%string
  /\ fst (classify_ph 5) = "⚠ Extremely Low"%string
  /\ fst (classify_ph 6) = "⚠ Low pH"%string
  /\ fst (classify_ph 7) = "✓ Good pH"%string
  /\ fst (classify_ph 8) = "⚠ High pH"%string
  /\ fst (classify_ph 9) = "⚠ Extremely High"%string.
Proof. repeat split. Qed.

(** ** The soil estimator *)

Lemma draw_fresh (np : numpy_rng) {A} (op : gen_state np -> A * gen_state np)
    (st : list (gen_state np)) (g : gen_state np) :
  draw np op (length st) (st ++ [g]) = Some (fst (op g), st ++ [snd (op g)]).
Proof.
  unfold draw. rewrite list_lookup_middle by reflexivity.
  destruct (op g) as [a g'] eqn:E. cbn [fst snd].
  replace (length st) with (length st + 0)%nat by lia.
  rewrite insert_app_r. reflexivity.
Qed.

Lemma predict_soil_metrics_run (np : numpy_rng) lat lon (st : list (gen_state np)) :
  predict_soil_metrics np lat lon st
  = Some (soil_metrics np lat lon, st ++ [spent_generator np lat lon]).
Proof.
  unfold predict_soil_metrics, soil_metrics, spent_generator, gbind, new_generator, gret.
  rewrite draw_fresh.
  destruct (uniform np _ 25 85) as [u g1]. cbn [fst snd].
  rewrite draw_fresh.
  destruct (choice np g1 _ _) as [c g2]. cbn [fst snd].
  destruct (String.eqb c "shallow"); [| destruct (String.eqb c "adequate")];
    rewrite draw_fresh; destruct (integers np g2 _ _); reflexivity.
Qed.

(** C3. Two calls of [predict_soil_metrics] with the same coordinates return
    the same (organic_matter_pct, depth_cm) pair, whatever generator objects
    exist when each call is made; in particular when the second call follows
    the first. *)
Theorem predict_soil_metrics_deterministic (np : numpy_rng) (lat lon : Q)
    (st st' : list (gen_state np)) :
  exists r st1 st1' st2,
    predict_soil_metrics np lat lon st = Some (r, st1)
    /\ predict_soil_metrics np lat lon st' = Some (r, st1')
    /\ predict_soil_metrics np lat lon st1 = Some (r, st2).
Proof.
  exists (soil_metrics np lat lon).
  eexists. eexists. eexists.
  rewrite !predict_soil_metrics_run. repeat split.
Qed.

(** The estimate depends on the coordinates through the seed only. *)
Lemma soil_metrics_seed np lat lon lat' lon' :
  seed_of lat lon = seed_of lat' lon' ->
  soil_metrics np lat lon = soil_metrics np lat' lon'.
Proof. unfold soil_metrics. now intros ->. Qed.

(** ** The workflow *)

Lemma invariant_defaults : invariant defaults.
Proof.
  constructor; cbn; try lia; eauto.
Qed.

Lemma invariant_set_step s v :
  invariant s -> (1 <= v <= 5)%Z -> (2 <= v -> 2 <= step s)%Z ->
  invariant (set_step v s).
Proof.
  intros [Hs Hl Hd Hz Hc] Hv Hmono. constructor; cbn; auto.
Qed.

Lemma polygon_block_invariant h s g :
  invariant s -> invariant (snd (polygon_block h s g)).
Proof.
  intros Hinv. unfold polygon_block.
  destruct (shape_centroid h g) as [[lon lat] |]; [| exact Hinv].
  destruct (differs (clicked_lat s) lat); [| exact Hinv].
  destruct (region_contains h lon lat); [| exact Hinv].
  destruct (projected_area h g) as [area_m2 |]; [| exact Hinv].
  destruct (soil_metrics (rng h) lat lon) as [som depth].
  destruct Hinv as [Hs Hl Hd Hz Hc].
  constructor; cbn; auto; try lia; try (intros _; repeat split; eauto).
Qed.

Lemma handle_click_invariant h s md :
  invariant s -> invariant (session_after (handle_click h s md)).
Proof.
  intros Hinv. unfold handle_click.
  destruct md as [md |]; [| exact Hinv].
  destruct (last_clicked md) as [c |]; [| exact Hinv].
  cbn zeta beta iota.
  destruct (region_contains h (lng c) (lat c)); [| exact Hinv].
  destruct (differs (clicked_lat s) (lat c)); [| exact Hinv].
  destruct (soil_metrics (rng h) (lat c) (lng c)) as [som depth].
  destruct Hinv as [Hs Hl Hd Hz Hc].
  constructor; cbn; auto; try lia; try (intros _; repeat split; eauto).
Qed.

Lemma handle_map_invariant h s md :
  invariant s -> invariant (session_after (handle_map h s md)).
Proof.
  intros Hinv. unfold handle_map.
  destruct (last_polygon_geometry md) as [g |]; [| now apply handle_click_invariant].
  pose proof (polygon_block_invariant h s g Hinv) as Hp.
  destruct (polygon_block h s g) as [[ | | ] s']; cbn [snd] in Hp.
  - exact Hp.
  - now apply handle_click_invariant.
  - destruct (bare_except_traps_rerun h); [now apply handle_click_invariant | exact Hp].
Qed.

Lemma shortlist_in_crop_names c : In c shortlist -> In c crop_names.
Proof.
  unfold shortlist, crop_names, crop_data. cbn.
  intros H. repeat (destruct H as [<- | H]; [tauto |]). destruct H.
Qed.

Lemma valid_widgets_crop w : valid_widgets w -> In (crop_choice w) crop_names.
Proof.
  intros [_ H]. destruct (recommend w); [now apply shortlist_in_crop_names | exact H].
Qed.

Lemma go_to_step3_run w s :
  exists ph som,
    go_to_step3 w s = Py.Ok (set_step 3 (set_display ph som s))
    /\ (is_Some (est_som s) -> is_Some som).
Proof.
  unfold go_to_step3. destruct (has_test w).
  - unfold first_key_in, ph_map, som_map. cbn [List.filter fst].
    destruct (is_substring "Below" (ph_choice w));
      [| destruct (is_substring "5.5" (ph_choice w));
         [| destruct (is_substring "6.5" (ph_choice w));
            [| destruct (is_substring "Above" (ph_choice w))]]];
    (destruct (is_substring "Low" (som_choice w));
      [| destruct (is_substring "Moderate" (som_choice w));
         [| destruct (is_substring "High" (som_choice w))]]);
    cbn; eauto.
  - cbn. eauto.
Qed.

Lemma navigation_buttons_invariant w back forward s :
  invariant s ->
  (forall b, back = Some b -> invariant (set_step b s)) ->
  (forall f s', forward = Some f -> f s = Py.Ok s' -> invariant s') ->
  invariant (session_after (navigation_buttons w back forward s)).
Proof.
  intros Hinv Hb Hf. unfold navigation_buttons.
  destruct (pressed w); try exact Hinv.
  - destruct back as [b |]; [cbn; now apply Hb | exact Hinv].
  - destruct forward as [f |]; [| exact Hinv].
    destruct (f s) as [s' | e] eqn:E; [cbn; now apply (Hf f) | exact Hinv].
Qed.

Lemma reset_survey_invariant s : invariant (reset_survey s).
Proof. constructor; cbn; try lia; eauto. Qed.

Lemma survey_column_invariant w s :
  invariant s -> valid_widgets w -> invariant (session_after (survey_column w s)).
Proof.
  intros Hinv Hw. unfold survey_column.
  destruct (Z.eqb_spec (step s) 1); [exact Hinv |].
  destruct (Z.eqb_spec (step s) 2) as [E2 |].
  { destruct (stage2_header s); [| exact Hinv].
    apply navigation_buttons_invariant; [exact Hinv | |].
    - intros b [= <-]. apply invariant_set_step; [exact Hinv | lia | lia].
    - intros f s' [= <-] E.
      destruct (go_to_step3_run w s) as (ph & som & Hrun & Hsom).
      rewrite Hrun in E. injection E as <-.
      destruct Hinv as [Hs Hl Hd Hz Hc].
      destruct (Hl ltac:(lia)) as (? & ? & ? & ?).
      constructor; cbn; auto; lia. }
  destruct (Z.eqb_spec (step s) 3) as [E3 |].
  { destruct (stage3_diagnostics s); [| exact Hinv].
    apply navigation_buttons_invariant; [exact Hinv | |].
    - intros b [= <-]. apply invariant_set_step; [exact Hinv | lia | lia].
    - intros f s' [= <-] [= <-]. apply invariant_set_step; [exact Hinv | lia | lia]. }
  destruct (Z.eqb_spec (step s) 4) as [E4 |].
  { destruct (number_input_check (default_size s)); [| exact Hinv].
    apply navigation_buttons_invariant; [exact Hinv | |].
    - intros b [= <-]. apply invariant_set_step; [exact Hinv | lia | lia].
    - intros f s' [= <-] [= <-].
      pose proof (valid_widgets_crop w Hw). destruct Hw as [Hsize _].
      destruct Hinv as [Hs Hl Hd Hz Hc]. constructor; cbn; auto; try lia.
      intros _. apply Hl. lia. }
  destruct (Z.eqb_spec (step s) 5) as [E5 |]; [| exact Hinv].
  destruct (stage5_results s); [| exact Hinv].
  destruct (pressed w); try exact Hinv.
  apply reset_survey_invariant.
Qed.

Lemma script_run_invariant h s md w :
  invariant s -> valid_widgets w -> invariant (session_after (script_run h s md w)).
Proof.
  intros Hinv Hw. unfold script_run.
  pose proof (handle_map_invariant h s md Hinv) as Hm.
  destruct (handle_map h s md) as [s' | s' | e s']; cbn in Hm |- *.
  - now apply survey_column_invariant.
  - exact Hm.
  - exact Hm.
Qed.

Lemma reachable_invariant h s : reachable h s -> invariant s.
Proof.
  induction 1 as [| s md w _ IH Hw].
  - apply invariant_defaults.
  - now apply script_run_invariant.
Qed.

Lemma play_reachable h s inputs :
  reachable h s -> Forall (fun i => valid_widgets (snd i)) inputs ->
  reachable h (Demo.play h s inputs).
Proof.
  intros Hs Hall. revert s Hs.
  induction Hall as [| [md w] rest Hw _ IH]; intros s Hs; cbn [Demo.play].
  - exact Hs.
  - apply IH. now apply reachable_run.
Qed.

Lemma valid_press b : valid_widgets (Demo.press b).
Proof. split; cbn; [lia | tauto]. Qed.

Lemma valid_idle : valid_widgets Demo.idle.
Proof. split; cbn; [lia | tauto]. Qed.

(** *** Reads of the soil estimate *)

Lemma base_credits_of_listed crop :
  In crop crop_names -> exists b, base_credits_of crop = Py.Ok b.
Proof.
  unfold crop_names, crop_data. cbn [List.map In crop_name].
  intros H. repeat (destruct H as [<- | H]; [cbn; eauto |]). destruct H.
Qed.

Lemma cars_offset_per_ha_positive adj size :
  (0 < size)%Z ->
  cars_offset_per_ha adj size = Py.Ok (adj / inject_Z size / (46 # 10)).
Proof.
  intros H. unfold cars_offset_per_ha, Py.truediv.
  apply Z.ltb_lt in H as H'. rewrite H'.
  rewrite (inject_Z_eqb_0 size H). reflexivity.
Qed.

Lemma cars_offset_per_ha_returns adj size :
  exists c, cars_offset_per_ha adj size = Py.Ok c.
Proof.
  destruct (Z.ltb_spec 0 size) as [H | H].
  - eexists. now apply cars_offset_per_ha_positive.
  - unfold cars_offset_per_ha. apply Z.ltb_ge in H. rewrite H. eauto.
Qed.

Lemma stage2_header_returns s :
  invariant s -> (2 <= step s)%Z -> stage2_header s = Py.Ok tt.
Proof.
  intros Hinv H2. destruct (inv_located s Hinv H2) as ([la Hla] & [lo Hlo] & _).
  unfold stage2_header. rewrite Hla, Hlo.
  now destruct (String.eqb _ _).
Qed.

Lemma stage3_diagnostics_returns s :
  invariant s -> (2 <= step s)%Z -> exists d, stage3_diagnostics s = Py.Ok d.
Proof.
  intros Hinv H2. destruct (inv_located s Hinv H2) as (_ & _ & _ & [depth Hd]).
  destruct (inv_display s Hinv) as [som Hsom].
  unfold stage3_diagnostics. rewrite Hsom, Hd. cbn. eauto.
Qed.

Lemma stage5_results_returns s :
  invariant s -> (2 <= step s)%Z -> exists r, stage5_results s = Py.Ok r.
Proof.
  intros Hinv H2.
  destruct (inv_located s Hinv H2) as ([la Hla] & _ & _ & [depth Hd]).
  destruct (inv_display s Hinv) as [som Hsom].
  destruct (base_credits_of_listed _ (inv_crop s Hinv)) as [b Hb].
  unfold stage5_results. cbn zeta beta iota.
  rewrite Hb, Hd, Hsom, Hla. cbn [Py.bind need].
  destruct (cars_offset_per_ha_returns
              (calculate_carbon_impact b (inject_Z (saved_farm_size s)) (inject_Z depth) som)
              (saved_farm_size s)) as [c Hc].
  destruct (String.eqb _ _); cbn [Py.bind]; rewrite Hc; cbn; eauto.
Qed.

(** C9. In every reachable session whose stage is 2 or greater, clicked_lat,
    clicked_lon, est_som and est_depth are all populated, and the stage-2
    header, the stage-3 diagnostics and the stage-5 carbon computation all
    return without reading a missing value. *)
Theorem soil_estimate_populated (h : host) (s : session) :
  reachable h s -> (2 <= step s)%Z ->
  (is_Some (clicked_lat s) /\ is_Some (clicked_lon s)
   /\ is_Some (est_som s) /\ is_Some (est_depth s))
  /\ stage2_header s = Py.Ok tt
  /\ (exists d, stage3_diagnostics s = Py.Ok d)
  /\ (exists r, stage5_results s = Py.Ok r).
Proof.
  intros Hr H2. pose proof (reachable_invariant h s Hr) as Hinv.
  split; [now apply inv_located |].
  split; [now apply stage2_header_returns |].
  split; [now apply stage3_diagnostics_returns | now apply stage5_results_returns].
Qed.

Lemma to_stage5_valid : Forall (fun i => valid_widgets (snd i)) to_stage5.
Proof. repeat constructor; cbn; try lia; tauto. Qed.

Lemma soil_estimate_populated_witness :
  let s := Demo.play (Demo.box_host true) defaults to_stage5 in
  step s = 5%Z
  /\ (is_Some (clicked_lat s) /\ is_Some (clicked_lon s)
      /\ is_Some (est_som s) /\ is_Some (est_depth s)).
Proof.
  split; [reflexivity |].
  apply (soil_estimate_populated (Demo.box_host true)).
  - apply play_reachable; [apply reachable_init | apply to_stage5_valid].
  - vm_compute. discriminate.
Defined.


(** *** Restart *)

Lemma reset_survey_fields s :
  reset_survey s = set_map_key (map_key s + 1) defaults.
Proof. reflexivity. Qed.

(** C7. From every reachable session at stage 5, pressing the restart button
    (in the survey column, and so in a run whose map payload is empty) ends
    the run with every session field at its default, the stage at 1, and the
    reset counter strictly greater than before (by one). *)
Theorem restart_restores_defaults (h : host) (s : session) (w : widgets) :
  reachable h s -> step s = 5%Z -> pressed w = RestartButton ->
  exists s', survey_column w s = Rerun s'
    /\ script_run h s None w = Rerun s'
    /\ step s' = 1%Z
    /\ clicked_lat s' = clicked_lat defaults
    /\ clicked_lon s' = clicked_lon defaults
    /\ est_som s' = est_som defaults
    /\ est_depth s' = est_depth defaults
    /\ display_ph s' = display_ph defaults
    /\ display_som s' = display_som defaults
    /\ saved_farm_size s' = saved_farm_size defaults
    /\ selected_crop s' = selected_crop defaults
    /\ drawn_area_ha s' = drawn_area_ha defaults
    /\ selection_mode s' = selection_mode defaults
    /\ map_key s' = (map_key s + 1)%Z
    /\ (map_key s < map_key s')%Z.
Proof.
  intros Hr H5 Hw. pose proof (reachable_invariant h s Hr) as Hinv.
  destruct (stage5_results_returns s Hinv ltac:(lia)) as [r Hres].
  assert (Hcol : survey_column w s = Rerun (reset_survey s)).
  { unfold survey_column. rewrite H5, Hres, Hw. reflexivity. }
  exists (reset_survey s). split; [exact Hcol |]. split; [exact Hcol |].
  rewrite reset_survey_fields. cbn. repeat split; lia.
Qed.

Lemma restart_restores_defaults_witness :
  let s := Demo.play (Demo.box_host true) defaults to_stage5 in
  exists s', survey_column (Demo.press RestartButton) s = Rerun s'
    /\ script_run (Demo.box_host true) s None (Demo.press RestartButton) = Rerun s'
    /\ step s' = 1%Z
    /\ clicked_lat s' = clicked_lat defaults
    /\ clicked_lon s' = clicked_lon defaults
    /\ est_som s' = est_som defaults
    /\ est_depth s' = est_depth defaults
    /\ display_ph s' = display_ph defaults
    /\ display_som s' = display_som defaults
    /\ saved_farm_size s' = saved_farm_size defaults
    /\ selected_crop s' = selected_crop defaults
    /\ drawn_area_ha s' = drawn_area_ha defaults
    /\ selection_mode s' = selection_mode defaults
    /\ map_key s' = (map_key s + 1)%Z
    /\ (map_key s < map_key s')%Z.
Proof.
  apply (restart_restores_defaults (Demo.box_host true)).
  - apply play_reachable; [apply reachable_init | apply to_stage5_valid].
  - reflexivity.
  - reflexivity.
Defined.

(** *** The farm-size default *)

Lemma draw_to_stage4_valid g : Forall (fun i => valid_widgets (snd i)) (draw_to_stage4 g).
Proof. repeat constructor; cbn; try lia; tauto. Qed.

(** C8, as worded, fails: for a drawn field of 12.7 ha the default offered at
    stage 4 is 12. *)
Lemma default_size_counterexample :
  let s := Demo.play (Demo.box_host true) defaults (draw_to_stage4 Demo.field_12_7ha) in
  reachable (Demo.box_host true) s
  /\ step s = 4%Z
  /\ drawn_area_ha s = Some (127 # 10)
  /\ default_size s = 12%Z
  /\ ~ default_size_as_specified s.
Proof.
  split; [apply play_reachable; [apply reachable_init | apply draw_to_stage4_valid] |].
  split; [reflexivity |]. split; [reflexivity |]. split; [reflexivity |].
  intros [H _]. vm_compute in H. discriminate.
Qed.

(** A drawn field below one hectare: the default is 0 and the farm-size input
    refuses it. *)
Lemma default_size_small_field :
  let h := Demo.box_host true in
  let s := Demo.play h defaults (draw_to_stage4 Demo.field_0_4ha) in
  reachable h s
  /\ step s = 4%Z
  /\ drawn_area_ha s = Some (4 # 10)
  /\ default_size s = 0%Z
  /\ script_run h s (Demo.drawn Demo.field_0_4ha None) Demo.idle
     = Crashed Py.ValueBelowMin s.
Proof.
  split; [apply play_reachable; [apply reachable_init | apply draw_to_stage4_valid] |].
  vm_compute. repeat split.
Qed.

Lemma int_ge_1 a : 1 <= a -> (1 <= Py.int a)%Z.
Proof.
  destruct a as [n d]. unfold Qle, Py.int. cbn [Qnum Qden].
  intros H. rewrite Z.mul_1_l, Z.mul_1_r in H.
  apply Z.quot_le_lower_bound; lia.
Qed.

Lemma truthy_ge_1 a : 1 <= a -> Py.truthy a = true.
Proof.
  intros H. unfold Py.truthy. destruct (PyFacts.eqb_spec a 0) as [E | E]; [| reflexivity].
  unfold Qeq, Qle in *. cbn in *. lia.
Qed.

(** C8, amended. In a reachable session the stage-4 default is the saved farm
    size when no area was drawn (or the drawn area rounds to 0.0), and the
    integer part of the drawn area, capped at 500000, when the drawn area is
    at least one hectare; in these cases it lies in [1, 500000].  It never
    exceeds 500000. *)
Theorem default_size_by_design (h : host) (s : session) :
  reachable h s ->
  (default_size s <= 500000)%Z
  /\ (drawn_area_ha s = None ->
      default_size s = saved_farm_size s /\ (1 <= default_size s <= 500000)%Z)
  /\ (forall a, drawn_area_ha s = Some a -> a == 0 ->
      default_size s = saved_farm_size s /\ (1 <= default_size s <= 500000)%Z)
  /\ (forall a, drawn_area_ha s = Some a -> 1 <= a ->
      default_size s = Z.min (Py.int a) 500000 /\ (1 <= default_size s <= 500000)%Z).
Proof.
  intros Hr. pose proof (inv_size s (reachable_invariant h s Hr)) as Hsize.
  unfold default_size. split; [lia |]. split; [| split].
  - intros ->. lia.
  - intros a -> Ha. unfold Py.truthy.
    destruct (PyFacts.eqb_spec a 0) as [_ | E]; [cbn; lia | contradiction].
  - intros a -> Ha. rewrite (truthy_ge_1 a Ha).
    pose proof (int_ge_1 a Ha). lia.
Qed.

Lemma default_size_by_design_witness :
  let s := Demo.play (Demo.box_host true) defaults (draw_to_stage4 Demo.field_12_7ha) in
  default_size s = Z.min (Py.int (127 # 10)) 500000 /\ (1 <= default_size s <= 500000)%Z.
Proof.
  refine (proj2 (proj2 (proj2
    (default_size_by_design (Demo.box_host true) _ _))) (127 # 10) _ _).
  - apply play_reachable; [apply reachable_init | apply draw_to_stage4_valid].
  - reflexivity.
  - vm_compute. discriminate.
Defined.

(** *** Selection events *)

Lemma handle_click_none h s md :
  click_point md = None -> handle_click h s md = Completed s.
Proof.
  unfold click_point, handle_click.
  destruct md as [md |]; [| reflexivity].
  destruct (last_clicked md); [discriminate | reflexivity].
Qed.


Lemma differs_same_lat stored l v :
  stored = Some l -> l == v -> differs stored v = false.
Proof.
  intros -> H. unfold differs.
  destruct (PyFacts.eqb_spec l v); [reflexivity | contradiction].
Qed.

Lemma handle_click_same_lat h s md lon lat l :
  click_point md = Some (lon, lat) -> clicked_lat s = Some l -> l == lat ->
  handle_click h s md = Completed s.
Proof.
  unfold click_point, handle_click.
  destruct md as [md |]; [| discriminate].
  destruct (last_clicked md) as [c |]; [| discriminate].
  intros [= <- <-] Hl Heq. cbn zeta beta iota.
  rewrite (differs_same_lat _ _ _ Hl Heq).
  now destruct (region_contains h (lng c) (lat c)).
Qed.




Lemma last_map {A B} (f : A -> B) (l : list A) :
  list.last (List.map f l) = option_map f (list.last l).
Proof.
  induction l as [| x [| y l] IH]; [reflexivity | reflexivity |].
  exact IH.
Qed.

(** On a well-formed payload the handler on the delivered payload is the
    handler above. *)
Lemma handle_raw_map_raw_of h s md :
  handle_raw_map h s (raw_of md) = handle_map h s md.
Proof.
  unfold handle_raw_map, handle_map, raw_last_polygon, last_polygon_geometry.
  destruct md as [md |]; [| reflexivity]. cbn [raw_of raw_all_drawings].
  rewrite last_map.
  assert (Hclick : forall s0,
    raw_handle_click h s0 (raw_of (Some md)) = handle_click h s0 (Some md)).
  { intros s0. unfold raw_handle_click, handle_click. cbn [raw_of raw_last_clicked].
    now destruct (last_clicked md) as [c |]. }
  cbn [raw_of] in Hclick.
  destruct (list.last (all_drawings md)) as [d |]; cbn [option_map]; [| apply Hclick].
  destruct (drawing_geometry d) as [g |]; [| apply Hclick].
  destruct (is_polygon_type (geom_type g)); [| apply Hclick].
  destruct (polygon_block h s g) as [[ | | ] s1]; [reflexivity | apply Hclick |].
  destruct (bare_except_traps_rerun h); [apply Hclick | reflexivity].
Qed.






(** The reads outside the [try] do let exceptions out: a last drawing, or a
    geometry member, that is not an object raises AttributeError before
    anything is written; a click that is reached and is not an object with
    "lat" and "lng" raises TypeError or KeyError. *)
Lemma handle_raw_map_ill_shaped h s click :
  handle_raw_map h s
    (Some {| raw_all_drawings := [DrawingObject GeometryNotObject];
             raw_last_clicked := click |})
  = Crashed Py.AttributeError s
  /\ handle_raw_map h s
       (Some {| raw_all_drawings := [DrawingNotObject]; raw_last_clicked := click |})
     = Crashed Py.AttributeError s
  /\ handle_raw_map h s
       (Some {| raw_all_drawings := [];
                raw_last_clicked :=
                  ClickObject CoordinateAbsent (CoordinateNumber (-807 # 10)) |})
     = Crashed Py.KeyError s
  /\ handle_raw_map h s
       (Some {| raw_all_drawings := []; raw_last_clicked := ClickNotObject |})
     = Crashed Py.TypeError s.
Proof. repeat split. Qed.

(** C10. When the representative point of a payload lies inside the region
    and its latitude equals the stored clicked_lat, the handler leaves the
    whole session unchanged and the stage does not advance, whatever the
    longitude of the point. *)
Theorem same_latitude_selection_ignored (h : host) (s : session)
    (md : option map_data) (lon lat l : Q) :
  representative h md = Some (lon, lat) ->
  region_contains h lon lat = true ->
  clicked_lat s = Some l -> l == lat ->
  handle_map h s md = Completed s.
Proof.
  intros Hrep _ Hl Heq. revert Hrep.
  unfold representative, handle_map, polygon_block.
  destruct (last_polygon_geometry md) as [g |].
  - destruct (shape_centroid h g) as [[lon' lat'] |].
    + intros [= -> ->]. now rewrite (differs_same_lat _ _ _ Hl Heq).
    + intros Hc. now apply (handle_click_same_lat h s md lon lat l).
  - intros Hc. now apply (handle_click_same_lat h s md lon lat l).
Qed.

(** After a click at 26.6N 80.7W, a click at 26.6N 80.5W and a field drawn
    around 26.6N 80.65W are both ignored. *)
Lemma same_latitude_selection_ignored_witness :
  let h := Demo.box_host true in
  let s := Demo.play h defaults [(Demo.clicked (266 # 10) (-807 # 10), Demo.idle)] in
  clicked_lon s = Some (-807 # 10)
  /\ handle_map h s (Demo.clicked (266 # 10) (-805 # 10)) = Completed s
  /\ handle_map h s
       (Demo.drawn (Demo.rectangle (-807 # 10) (265 # 10) (-806 # 10) (267 # 10)) None)
     = Completed s.
Proof.
  split; [reflexivity |]. split.
  - apply (same_latitude_selection_ignored (Demo.box_host true) _ _
             (-805 # 10) (266 # 10) (266 # 10)); reflexivity.
  - apply (same_latitude_selection_ignored (Demo.box_host true) _ _
             (-1613 # 20) (133 # 5) (266 # 10)); reflexivity.
Defined.

(** * Further properties of the program *)

(** ** Carbon model *)

Lemma depth_factor_le_1 d : depth_factor d <= 1.
Proof. apply PyFacts.min_le_r. Qed.

Lemma som_factor_le_1 s : som_factor s <= 1.
Proof. apply PyFacts.min_le_r. Qed.

Lemma depth_factor_below d : d < 30 -> depth_factor d < 1.
Proof.
  intros H. apply Qle_lt_trans with (d / 30); [apply PyFacts.min_le_l |].
  apply Qlt_shift_div_r; [reflexivity | now rewrite Qmult_1_l].
Qed.

Lemma som_factor_below s : s < 60 -> som_factor s < 1.
Proof.
  intros H. apply Qle_lt_trans with (s / 60); [apply PyFacts.min_le_l |].
  apply Qlt_shift_div_r; [reflexivity | now rewrite Qmult_1_l].
Qed.

(** On non-negative inputs the adjusted credits lie between 0 and the
    unadjusted base_credits * farm_size. *)
Theorem adjusted_credits_bounds (b f d s : Q) :
  0 <= b -> 0 <= f -> 0 <= d -> 0 <= s ->
  0 <= calculate_carbon_impact b f d s
  /\ calculate_carbon_impact b f d s <= b * f.
Proof.
  intros Hb Hf Hd Hs. rewrite calculate_carbon_impact_factors.
  pose proof (depth_factor_nonneg d Hd) as Hd0. pose proof (depth_factor_le_1 d) as Hd1.
  pose proof (som_factor_nonneg s Hs) as Hs0. pose proof (som_factor_le_1 s) as Hs1.
  assert (Hbf : 0 <= b * f) by now apply Qmult_le_0_compat.
  assert (H1 : 0 <= b * f * depth_factor d) by now apply Qmult_le_0_compat.
  assert (H2 : b * f * depth_factor d <= b * f).
  { rewrite <- (Qmult_1_r (b * f)) at 2. rewrite !(Qmult_comm (b * f)).
    now apply Qmult_le_compat_r. }
  split; [now apply Qmult_le_0_compat |].
  apply Qle_trans with (b * f * depth_factor d); [| exact H2].
  rewrite <- (Qmult_1_r (b * f * depth_factor d)) at 2.
  rewrite !(Qmult_comm (b * f * depth_factor d)).
  now apply Qmult_le_compat_r.
Qed.

Lemma adjusted_credits_bounds_witness :
  0 <= calculate_carbon_impact (912 # 100) 250 20 45
  /\ calculate_carbon_impact (912 # 100) 250 20 45 <= (912 # 100) * 250.
Proof. apply adjusted_credits_bounds; unfold Qle; simpl; lia. Defined.

Lemma scaled_below x u v :
  0 < x -> 0 <= u -> u <= 1 -> 0 <= v -> v <= 1 -> u < 1 \/ v < 1 -> x * u * v < x.
Proof.
  intros Hx Hu0 Hu1 Hv0 Hv1 Hlt.
  assert (Hxu : x * u <= x) by nra.
  assert (Hxu0 : 0 <= x * u) by nra.
  destruct Hlt as [H | H].
  - assert (x * u < x) by nra.
    assert (x * u * v <= x * u) by nra. lra.
  - destruct (Qlt_le_dec 0 (x * u)) as [Hp | Hz].
    + assert (x * u * v < x * u) by nra. lra.
    + assert (E : x * u == 0) by lra. rewrite E. lra.
Qed.

(** For a positive coefficient and a positive farm size the full
    base_credits * farm_size is credited exactly when depth_cm >= 30 and
    som_pct >= 60. *)
Theorem full_credit_iff_saturated (b f d s : Q) :
  0 < b -> 0 < f -> 0 <= d -> 0 <= s ->
  calculate_carbon_impact b f d s == b * f <-> 30 <= d /\ 60 <= s.
Proof.
  intros Hb Hf Hd Hs. rewrite calculate_carbon_impact_factors.
  assert (Hbf : 0 < b * f) by now apply Qmult_lt_0_compat.
  pose proof (depth_factor_nonneg d Hd) as Hd0. pose proof (depth_factor_le_1 d) as Hd1.
  pose proof (som_factor_nonneg s Hs) as Hs0. pose proof (som_factor_le_1 s) as Hs1.
  split.
  - intros E.
    destruct (Qlt_le_dec d 30) as [Hlt | Hge].
    { exfalso. pose proof (depth_factor_below d Hlt) as Hb1.
      pose proof (scaled_below _ _ _ Hbf Hd0 Hd1 Hs0 Hs1 (or_introl Hb1)) as Hc.
      rewrite E in Hc. exact (Qlt_irrefl _ Hc). }
    destruct (Qlt_le_dec s 60) as [Hlt | Hge'].
    { exfalso. pose proof (som_factor_below s Hlt) as Hb1.
      pose proof (scaled_below _ _ _ Hbf Hd0 Hd1 Hs0 Hs1 (or_intror Hb1)) as Hc.
      rewrite E in Hc. exact (Qlt_irrefl _ Hc). }
    now split.
  - intros [H30 H60].
    rewrite (depth_factor_saturated d H30), (som_factor_saturated s H60). ring.
Qed.

Lemma full_credit_iff_saturated_witness :
  calculate_carbon_impact (675 # 100) 100 100 60 == (675 # 100) * 100.
Proof.
  apply (proj2 (full_credit_iff_saturated (675 # 100) 100 100 60
                  eq_refl eq_refl ltac:(discriminate) ltac:(discriminate))).
  split; discriminate.
Defined.



(** The "Very Low Depth" band of stage 3 is exactly the range of depths for
    which the carbon model reduces the credits. *)
Theorem low_depth_band_iff_reduced (depth : Z) :
  fst (classify_depth depth) = "⚠ Very Low Depth"%string
  <-> depth_factor (inject_Z depth) < 1.
Proof.
  unfold classify_depth. destruct (Z.ltb_spec depth 30) as [H | H]; cbn [fst].
  - split; [intros _ | reflexivity].
    apply depth_factor_below. unfold Qlt. simpl. lia.
  - assert (E : depth_factor (inject_Z depth) == 1).
    { apply depth_factor_saturated. unfold Qle. simpl. lia. }
    split.
    + destruct ((30 <=? depth)%Z && (depth <=? 100)%Z); discriminate.
    + intros Hlt. rewrite E in Hlt. discriminate Hlt.
Qed.

(** ** Crop table *)

Lemma crop_names_NoDup : NoDup crop_names.
Proof.
  unfold crop_names, crop_data. cbn [List.map crop_name].
  repeat (constructor; [cbn [In]; intuition discriminate |]). constructor.
Qed.

(** Looking a crop up returns the coefficient of its row, for every row of
    the table, and raises IndexError exactly for the names that are not in
    the table; no name occurs twice. *)
Theorem base_credits_of_table :
  NoDup crop_names
  /\ (forall r, In r crop_data -> base_credits_of (crop_name r) = Py.Ok (carbon_credits r))
  /\ (forall crop, base_credits_of crop = Py.Raise Py.IndexError <-> ~ In crop crop_names).
Proof.
  split; [apply crop_names_NoDup |]. split.
  - unfold crop_data. cbn [In].
    intros r H. repeat (destruct H as [<- | H]; [reflexivity |]). destruct H.
  - intros crop. unfold base_credits_of, crop_names, crop_data.
    cbn [List.map List.filter crop_name In].
    repeat match goal with
           | |- context [String.eqb ?a crop] =>
               destruct (String.eqb_spec a crop) as [<- | ?]
           end; cbn; split; intros H; try discriminate; try tauto.
    all: exfalso; apply H; tauto.
Qed.

(** ** Soil estimator *)

Lemma round_half_even_floor y :
  Py.round_half_even y = Qfloor y \/ Py.round_half_even y = (Qfloor y + 1)%Z.
Proof.
  unfold Py.round_half_even. cbv zeta.
  destruct (Py.ltb _ _); [tauto |].
  destruct (Py.ltb _ _); [tauto |].
  destruct (Z.even _); tauto.
Qed.

Lemma round_half_even_ge y n : inject_Z n <= y -> (n <= Py.round_half_even y)%Z.
Proof.
  intros H. pose proof (Qlt_floor y) as Hlt.
  assert (Hn : (n < Qfloor y + 1)%Z).
  { rewrite Zlt_Qlt. eapply Qle_lt_trans; eassumption. }
  destruct (round_half_even_floor y) as [-> | ->]; lia.
Qed.

Lemma round_half_even_le y n : y <= inject_Z n -> (Py.round_half_even y <= n)%Z.
Proof.
  intros H. pose proof (Qfloor_le y) as Hfl.
  assert (Hf : (Qfloor y <= n)%Z).
  { rewrite Zle_Qle. eapply Qle_trans; eassumption. }
  unfold Py.round_half_even. cbv zeta.
  destruct (PyFacts.ltb_spec (y - inject_Z (Qfloor y)) (1 # 2)) as [Hr | Hr]; [exact Hf |].
  assert (Hne : Qfloor y <> n).
  { intros E. rewrite E in Hr. apply Hr. lra. }
  destruct (Py.ltb _ _); [lia |]. destruct (Z.even _); lia.
Qed.

Lemma round1_range u (lo hi : Z) :
  inject_Z lo <= u -> u <= inject_Z hi ->
  inject_Z lo <= Py.round1 u /\ Py.round1 u <= inject_Z hi.
Proof.
  intros Hlo Hhi. unfold Py.round1.
  assert (H1 : (lo * 10 <= Py.round_half_even (u * 10))%Z).
  { apply round_half_even_ge. rewrite inject_Z_mult.
    change (inject_Z 10) with 10. lra. }
  assert (H2 : (Py.round_half_even (u * 10) <= hi * 10)%Z).
  { apply round_half_even_le. rewrite inject_Z_mult.
    change (inject_Z 10) with 10. lra. }
  rewrite Zle_Qle, inject_Z_mult in H1, H2.
  change (inject_Z 10) with 10 in H1, H2.
  split.
  - apply Qle_shift_div_l; [reflexivity | exact H1].
  - apply Qle_shift_div_r; [reflexivity | exact H2].
Qed.

Lemma soil_metrics_ranges np lat lon :
  rng_contract np ->
  25 <= fst (soil_metrics np lat lon) /\ fst (soil_metrics np lat lon) <= 85
  /\ (15 <= snd (soil_metrics np lat lon) <= 150)%Z.
Proof.
  intros [Hu Hi]. unfold soil_metrics.
  pose proof (Hu (default_rng np (seed_of lat lon)) 25 85 ltac:(discriminate)) as Hur.
  destruct (uniform np _ 25 85) as [u g1]. cbn [fst] in Hur.
  destruct (choice np g1 _ _) as [c g2].
  pose proof (round1_range u 25 85 (proj1 Hur) (proj2 Hur)) as [Hr1 Hr2].
  pose proof (Hi g2 15 30 ltac:(lia))%Z.
  pose proof (Hi g2 30 101 ltac:(lia))%Z.
  pose proof (Hi g2 101 151 ltac:(lia))%Z.
  destruct (String.eqb c "shallow"); [| destruct (String.eqb c "adequate")];
    cbn [fst snd]; (split; [exact Hr1 | split; [exact Hr2 | lia]]).
Qed.

(** With a generator whose [uniform] stays within its bounds and whose
    [integers] stays in its half-open range, every estimate has organic
    matter between 25 and 85 and depth between 15 and 150. *)
Theorem predict_soil_metrics_ranges (np : numpy_rng) (lat lon : Q)
    (st : list (gen_state np)) :
  rng_contract np ->
  exists som depth st',
    predict_soil_metrics np lat lon st = Some ((som, depth), st')
    /\ 25 <= som /\ som <= 85 /\ (15 <= depth <= 150)%Z.
Proof.
  intros Hc. pose proof (soil_metrics_ranges np lat lon Hc) as H.
  rewrite predict_soil_metrics_run.
  destruct (soil_metrics np lat lon) as [som depth]. cbn [fst snd] in H.
  exists som, depth. eexists. split; [reflexivity | exact H].
Qed.

Lemma lcg_next_range g : (0 <= Demo.lcg_next g < 2147483648)%Z.
Proof. unfold Demo.lcg_next. apply Z.mod_pos_bound. reflexivity. Qed.

Lemma lcg_contract : rng_contract Demo.lcg.
Proof.
  split.
  - intros g lo hi H. cbn [uniform Demo.lcg fst].
    pose proof (lcg_next_range g) as [H0 H1].
    assert (F0 : 0 <= Demo.lcg_next g # 2147483648).
    { unfold Qle. cbn. lia. }
    assert (F1 : Demo.lcg_next g # 2147483648 <= 1).
    { unfold Qle. cbn. lia. }
    split; nra.
  - intros g lo hi H. cbn [integers Demo.lcg fst].
    pose proof (Z.mod_pos_bound (Demo.lcg_next g) (hi - lo) ltac:(lia)). lia.
Qed.

Lemma predict_soil_metrics_ranges_witness :
  exists som depth st',
    predict_soil_metrics Demo.lcg (266 # 10) (-807 # 10) [] = Some ((som, depth), st')
    /\ 25 <= som /\ som <= 85 /\ (15 <= depth <= 150)%Z.
Proof. apply predict_soil_metrics_ranges. exact lcg_contract. Defined.

(** ** Map handler *)

Lemma handle_click_eq h s md :
  handle_click h s md
  = match click_point md with
    | Some (lon, lat) =>
        if region_contains h lon lat && differs (clicked_lat s) lat
        then Rerun (click_selected h lat lon s)
        else Completed s
    | None => Completed s
    end.
Proof.
  unfold handle_click, click_point, click_selected.
  destruct md as [md |]; [| reflexivity].
  destruct (last_clicked md) as [c |]; [| reflexivity]. cbn zeta beta iota.
  destruct (region_contains h (lng c) (lat c)); [| reflexivity].
  destruct (differs (clicked_lat s) (lat c)); [| reflexivity]. cbn [andb].
  now destruct (soil_metrics (rng h) (lat c) (lng c)).
Qed.

Lemma polygon_block_eq h s g :
  polygon_block h s g
  = match shape_centroid h g with
    | Some (lon, lat) =>
        if differs (clicked_lat s) lat && region_contains h lon lat then
          match projected_area h g with
          | Some area_m2 => (Raised_rerun, polygon_selected h lat lon area_m2 s)
          | None => (Raised_error, s)
          end
        else (Fell_through, s)
    | None => (Raised_error, s)
    end.
Proof.
  unfold polygon_block, polygon_selected.
  destruct (shape_centroid h g) as [[lon lat] |]; [| reflexivity].
  destruct (differs (clicked_lat s) lat); [| reflexivity].
  destruct (region_contains h lon lat); [| reflexivity]. cbn [andb].
  destruct (projected_area h g) as [a |]; [| reflexivity].
  now destruct (soil_metrics (rng h) lat lon).
Qed.

Lemma clicked_lat_click_selected h lat lon s :
  clicked_lat (click_selected h lat lon s) = Some lat.
Proof. unfold click_selected. now destruct (soil_metrics _ _ _). Qed.

Lemma clicked_lat_polygon_selected h lat lon a s :
  clicked_lat (polygon_selected h lat lon a s) = Some lat.
Proof. unfold polygon_selected. now destruct (soil_metrics _ _ _). Qed.

Lemma click_selected_absorbs_click h lat lon lat' lon' s :
  click_selected h lat lon (click_selected h lat' lon' s) = click_selected h lat lon s.
Proof.
  unfold click_selected.
  now destruct (soil_metrics _ lat lon), (soil_metrics _ lat' lon').
Qed.

Lemma click_selected_absorbs_polygon h lat lon lat' lon' a s :
  click_selected h lat lon (polygon_selected h lat' lon' a s) = click_selected h lat lon s.
Proof.
  unfold click_selected, polygon_selected.
  now destruct (soil_metrics _ lat lon), (soil_metrics _ lat' lon').
Qed.

Lemma polygon_selected_absorbs_click h lat lon a lat' lon' s :
  polygon_selected h lat lon a (click_selected h lat' lon' s) = polygon_selected h lat lon a s.
Proof.
  unfold click_selected, polygon_selected.
  now destruct (soil_metrics _ lat lon), (soil_metrics _ lat' lon').
Qed.

Lemma eqb_refl x : Py.eqb x x = true.
Proof. destruct (PyFacts.eqb_spec x x) as [_ | H]; [reflexivity | now destruct H]. Qed.

Lemma eqb_sym x y : Py.eqb x y = Py.eqb y x.
Proof.
  destruct (PyFacts.eqb_spec x y) as [H | H], (PyFacts.eqb_spec y x) as [H' | H'];
    try reflexivity; exfalso; [apply H' | apply H]; now symmetry.
Qed.

Lemma differs_stored x : differs (Some x) x = false.
Proof. unfold differs. now rewrite eqb_refl. Qed.

Lemma differs_sym x y : differs (Some x) y = differs (Some y) x.
Proof. unfold differs. now rewrite eqb_sym. Qed.

(** What the handler does, by cases on the payload. *)
Lemma handle_map_eq h s md :
  handle_map h s md
  = match last_polygon_geometry md with
    | Some g =>
        match polygon_block h s g with
        | (Fell_through, s1) => Completed s1
        | (Raised_error, s1) => handle_click h s1 md
        | (Raised_rerun, s1) =>
            if bare_except_traps_rerun h then handle_click h s1 md else Rerun s1
        end
    | None => handle_click h s md
    end.
Proof. reflexivity. Qed.

(** The handler either leaves the session as it is or records a selection
    inside the region; it never writes the survey fields or the counter. *)
Lemma handle_map_cases h s md :
  session_after (handle_map h s md) = s
  \/ exists lat lon,
       region_contains h lon lat = true
       /\ (session_after (handle_map h s md) = click_selected h lat lon s
           \/ exists a, session_after (handle_map h s md) = polygon_selected h lat lon a s).
Proof.
  rewrite handle_map_eq.
  assert (Hclick : forall s0 s1,
    (s0 = s \/ exists lat lon a, region_contains h lon lat = true
                 /\ s0 = polygon_selected h lat lon a s) ->
    s1 = session_after (handle_click h s0 md) ->
    s1 = s \/ exists lat lon, region_contains h lon lat = true
       /\ (s1 = click_selected h lat lon s \/ exists a, s1 = polygon_selected h lat lon a s)).
  { intros s0 s1 Hs0 ->. rewrite handle_click_eq.
    destruct (click_point md) as [[lon lat] |].
    - destruct (region_contains h lon lat) eqn:Er; cbn [andb].
      + destruct (differs (clicked_lat s0) lat); cbn [session_after].
        * right. exists lat, lon. split; [exact Er |]. left.
          destruct Hs0 as [-> | (la & lo & a & _ & ->)];
            [reflexivity | apply click_selected_absorbs_polygon].
        * destruct Hs0 as [-> | (la & lo & a & Hin & ->)]; [now left |].
          right. exists la, lo. split; [exact Hin | right; now exists a].
      + cbn [session_after].
        destruct Hs0 as [-> | (la & lo & a & Hin & ->)]; [now left |].
        right. exists la, lo. split; [exact Hin | right; now exists a].
    - cbn [session_after].
      destruct Hs0 as [-> | (la & lo & a & Hin & ->)]; [now left |].
      right. exists la, lo. split; [exact Hin | right; now exists a]. }
  destruct (last_polygon_geometry md) as [g |];
    [| apply (Hclick s); [now left | reflexivity]].
  rewrite polygon_block_eq.
  destruct (shape_centroid h g) as [[lon lat] |];
    [| apply (Hclick s); [now left | reflexivity]].
  destruct (differs (clicked_lat s) lat); cbn [andb]; [| now left].
  destruct (region_contains h lon lat) eqn:Er; [| now left].
  destruct (projected_area h g) as [a |];
    [| apply (Hclick s); [now left | reflexivity]].
  destruct (bare_except_traps_rerun h).
  - apply (Hclick (polygon_selected h lat lon a s)); [| reflexivity].
    right. now exists lat, lon, a.
  - right. exists lat, lon. split; [exact Er |]. right. now exists a.
Qed.

Lemma same_survey_fields_click_selected h lat lon s :
  same_survey_fields s (click_selected h lat lon s).
Proof. unfold click_selected. destruct (soil_metrics _ _ _). now repeat split. Qed.

Lemma same_survey_fields_polygon_selected h lat lon a s :
  same_survey_fields s (polygon_selected h lat lon a s).
Proof. unfold polygon_selected. destruct (soil_metrics _ _ _). now repeat split. Qed.

Lemma step_click_selected h lat lon s : step (click_selected h lat lon s) = 2%Z.
Proof. unfold click_selected. now destruct (soil_metrics _ _ _). Qed.

Lemma step_polygon_selected h lat lon a s : step (polygon_selected h lat lon a s) = 2%Z.
Proof. unfold polygon_selected. now destruct (soil_metrics _ _ _). Qed.

(** Whatever the payload, the map handler never writes display_ph,
    display_som, saved_farm_size, selected_crop or map_key, and the only
    stage it ever moves to is stage 2. *)
Theorem handle_map_frame (h : host) (s : session) (md : option map_data) :
  same_survey_fields s (session_after (handle_map h s md))
  /\ (step (session_after (handle_map h s md)) = step s
      \/ step (session_after (handle_map h s md)) = 2%Z).
Proof.
  destruct (handle_map_cases h s md) as [-> | (lat & lon & _ & [-> | [a ->]])].
  - split; [now repeat split | now left].
  - split; [apply same_survey_fields_click_selected | right; apply step_click_selected].
  - split; [apply same_survey_fields_polygon_selected | right; apply step_polygon_selected].
Qed.

Ltac settle :=
  repeat (cbn [andb session_after fst snd]
          || rewrite handle_click_eq
          || rewrite clicked_lat_click_selected
          || rewrite clicked_lat_polygon_selected
          || rewrite differs_stored
          || rewrite click_selected_absorbs_click
          || rewrite click_selected_absorbs_polygon
          || rewrite polygon_selected_absorbs_click).

Ltac settle_with_hyps :=
  settle;
  repeat (match goal with
          | H : ?x = _ |- context [?x] => rewrite H
          end; settle).

Lemma handle_click_settled h s md :
  handle_click h (session_after (handle_click h s md)) md
  = Completed (session_after (handle_click h s md)).
Proof.
  settle.
  destruct (click_point md) as [[lon lat] |]; [| reflexivity].
  destruct (region_contains h lon lat) eqn:Er; settle; [| reflexivity].
  destruct (differs (clicked_lat s) lat) eqn:Ed; settle_with_hyps; reflexivity.
Qed.

(** Streamlit hands the same payload to every run until the map is touched
    again.  Handling a payload a second time leaves the session exactly as
    the first handling left it. *)
Theorem handle_map_idempotent (h : host) (s : session) (md : option map_data) :
  session_after (handle_map h (session_after (handle_map h s md)) md)
  = session_after (handle_map h s md).
Proof.
  rewrite !handle_map_eq.
  destruct (last_polygon_geometry md) as [g |];
    [| now rewrite handle_click_settled].
  rewrite !polygon_block_eq.
  destruct (shape_centroid h g) as [[lonG latG] |];
    [| now rewrite handle_click_settled].
  destruct (differs (clicked_lat s) latG) eqn:Ed; settle_with_hyps; [| reflexivity].
  destruct (region_contains h lonG latG) eqn:Er; settle_with_hyps; [| reflexivity].
  destruct (projected_area h g) as [a |].
  2: { settle.
       destruct (click_point md) as [[lonP latP] |] eqn:Ecp; settle_with_hyps; [| reflexivity].
       destruct (region_contains h lonP latP) eqn:ErP; settle_with_hyps; [| reflexivity].
       destruct (differs (clicked_lat s) latP) eqn:EdP; settle_with_hyps; [| reflexivity].
       destruct (differs (Some latP) latG) eqn:EdPG; settle_with_hyps; reflexivity. }
  destruct (bare_except_traps_rerun h); settle_with_hyps; [| reflexivity].
  destruct (click_point md) as [[lonP latP] |] eqn:Ecp; settle_with_hyps; [| reflexivity].
  destruct (region_contains h lonP latP) eqn:ErP; settle_with_hyps; [| reflexivity].
  destruct (differs (Some latG) latP) eqn:EdGP; settle_with_hyps; [| reflexivity].
  rewrite (differs_sym latP latG). settle_with_hyps. reflexivity.
Qed.

(** An accepted click.  When the payload has no polygon that parses, its
    click lies inside the region and its latitude differs from the stored
    one, the run ends in a rerun with the stage at 2, the click stored as the
    selection, no drawn area, mode "point", the soil estimate of that point,
    and every survey field and the counter untouched. *)
Theorem click_accepted (h : host) (s : session) (md : option map_data) (lon lat : Q) :
  last_polygon_geometry md = None \/ malformed_drawing h md = true ->
  click_point md = Some (lon, lat) ->
  region_contains h lon lat = true ->
  differs (clicked_lat s) lat = true ->
  exists s', handle_map h s md = Rerun s'
    /\ step s' = 2%Z
    /\ clicked_lat s' = Some lat /\ clicked_lon s' = Some lon
    /\ drawn_area_ha s' = None /\ selection_mode s' = "point"%string
    /\ est_som s' = Some (fst (soil_metrics (rng h) lat lon))
    /\ est_depth s' = Some (snd (soil_metrics (rng h) lat lon))
    /\ same_survey_fields s s'.
Proof.
  intros Hpoly Hc Hin Hd. exists (click_selected h lat lon s). split.
  - rewrite handle_map_eq. unfold malformed_drawing in Hpoly.
    destruct (last_polygon_geometry md) as [g |].
    + destruct Hpoly as [Hn | Hm]; [discriminate |].
      rewrite polygon_block_eq.
      destruct (shape_centroid h g); [discriminate |].
      rewrite handle_click_eq, Hc, Hin, Hd. reflexivity.
    + rewrite handle_click_eq, Hc, Hin, Hd. reflexivity.
  - unfold click_selected. destruct (soil_metrics (rng h) lat lon).
    now repeat split.
Qed.

Lemma click_accepted_witness :
  exists s', handle_map (Demo.box_host true) defaults (Demo.clicked (266 # 10) (-807 # 10))
             = Rerun s'
    /\ step s' = 2%Z
    /\ clicked_lat s' = Some (266 # 10) /\ clicked_lon s' = Some (-807 # 10)
    /\ drawn_area_ha s' = None /\ selection_mode s' = "point"%string
    /\ est_som s' = Some (fst (soil_metrics Demo.lcg (266 # 10) (-807 # 10)))
    /\ est_depth s' = Some (snd (soil_metrics Demo.lcg (266 # 10) (-807 # 10)))
    /\ same_survey_fields defaults s'.
Proof.
  apply (click_accepted (Demo.box_host true)); try reflexivity. now left.
Defined.

(** An accepted polygon.  When the last drawing parses, its centroid lies
    inside the region with a latitude that differs from the stored one and
    its area can be measured, then, unless the rerun is intercepted while the
    payload also carries a click, the session is left at stage 2 with the
    centroid stored as the selection, the area in hectares rounded to one
    decimal, mode "polygon", the soil estimate of the centroid, and every
    survey field and the counter untouched. *)
Theorem polygon_accepted (h : host) (s : session) (md : option map_data)
    (g : geometry) (lon lat area_m2 : Q) :
  last_polygon_geometry md = Some g ->
  shape_centroid h g = Some (lon, lat) ->
  region_contains h lon lat = true ->
  differs (clicked_lat s) lat = true ->
  projected_area h g = Some area_m2 ->
  bare_except_traps_rerun h = false \/ click_point md = None ->
  exists s', session_after (handle_map h s md) = s'
    /\ step s' = 2%Z
    /\ clicked_lat s' = Some lat /\ clicked_lon s' = Some lon
    /\ drawn_area_ha s' = Some (Py.round1 (area_m2 / 10000))
    /\ selection_mode s' = "polygon"%string
    /\ est_som s' = Some (fst (soil_metrics (rng h) lat lon))
    /\ est_depth s' = Some (snd (soil_metrics (rng h) lat lon))
    /\ same_survey_fields s s'.
Proof.
  intros Hg Hc Hin Hd Ha Hrerun. exists (polygon_selected h lat lon area_m2 s). split.
  - rewrite handle_map_eq, Hg, polygon_block_eq, Hc, Hd, Hin, Ha. cbn [andb].
    destruct (bare_except_traps_rerun h); [| reflexivity].
    destruct Hrerun as [Hf | Hn]; [discriminate |].
    now rewrite handle_click_eq, Hn.
  - unfold polygon_selected. destruct (soil_metrics (rng h) lat lon).
    now repeat split.
Qed.

Lemma polygon_accepted_witness :
  exists s', session_after (handle_map (Demo.box_host true) defaults
                              (Demo.drawn Demo.field_12_7ha None)) = s'
    /\ step s' = 2%Z
    /\ clicked_lat s' = Some (5321 # 200) /\ clicked_lon s' = Some (-16139873 # 200000)
    /\ drawn_area_ha s' = Some (Py.round1 (127000 / 10000))
    /\ selection_mode s' = "polygon"%string
    /\ est_som s' = Some (fst (soil_metrics Demo.lcg (5321 # 200) (-16139873 # 200000)))
    /\ est_depth s' = Some (snd (soil_metrics Demo.lcg (5321 # 200) (-16139873 # 200000)))
    /\ same_survey_fields defaults s'.
Proof.
  apply (polygon_accepted (Demo.box_host true) defaults _ Demo.field_12_7ha);
    try reflexivity.
  now right.
Defined.

(** When the rerun of an accepted polygon is not intercepted, or the payload
    does not combine a polygon with a click, one handling settles the
    payload: handled again, at whatever stage the session is by then, it
    completes without touching the session. *)
Theorem handle_map_settles (h : host) (s : session) (md : option map_data) (stage : Z) :
  bare_except_traps_rerun h = false
  \/ click_point md = None \/ last_polygon_geometry md = None ->
  let s1 := set_step stage (session_after (handle_map h s md)) in
  handle_map h s1 md = Completed s1.
Proof.
  intros Hcase. cbv zeta.
  assert (Hstep : forall s0, clicked_lat (set_step stage s0) = clicked_lat s0)
    by reflexivity.
  rewrite !handle_map_eq.
  destruct (last_polygon_geometry md) as [g |] eqn:Eg.
  2: { settle. rewrite Hstep.
       destruct (click_point md) as [[lon lat] |] eqn:Ecp; settle; [| reflexivity].
       destruct (region_contains h lon lat) eqn:Er; settle; [| reflexivity].
       destruct (differs (clicked_lat s) lat) eqn:Ed; settle_with_hyps; reflexivity. }
  rewrite !polygon_block_eq.
  destruct (shape_centroid h g) as [[lonG latG] |] eqn:Ec.
  2: { settle. rewrite Hstep.
       destruct (click_point md) as [[lon lat] |] eqn:Ecp; settle; [| reflexivity].
       destruct (region_contains h lon lat) eqn:Er; settle; [| reflexivity].
       destruct (differs (clicked_lat s) lat) eqn:Ed; settle_with_hyps; reflexivity. }
  rewrite Hstep.
  destruct (differs (clicked_lat s) latG) eqn:Ed; settle_with_hyps; [| reflexivity].
  destruct (region_contains h lonG latG) eqn:Er; settle_with_hyps; [| reflexivity].
  destruct (projected_area h g) as [a |] eqn:Ea.
  2: { settle. rewrite ?Hstep.
       destruct (click_point md) as [[lonP latP] |] eqn:Ecp; settle_with_hyps;
         rewrite ?Hstep; settle_with_hyps; [| reflexivity].
       destruct (region_contains h lonP latP) eqn:ErP; settle_with_hyps;
         rewrite ?Hstep; settle_with_hyps; [| reflexivity].
       destruct (differs (clicked_lat s) latP) eqn:EdP; settle_with_hyps;
         rewrite ?Hstep; settle_with_hyps; [| reflexivity].
       destruct (differs (Some latP) latG) eqn:EdPG; settle_with_hyps;
         rewrite ?Hstep; settle_with_hyps; reflexivity. }
  destruct (bare_except_traps_rerun h) eqn:Et; settle_with_hyps; [| reflexivity].
  destruct Hcase as [Hf | [Hn | Hn]]; try discriminate.
  rewrite Hn. settle. reflexivity.
Qed.

Lemma handle_map_settles_witness :
  let h := Demo.box_host true in
  let md := Demo.clicked (266 # 10) (-807 # 10) in
  let s1 := set_step 1 (session_after (handle_map h defaults md)) in
  handle_map h s1 md = Completed s1.
Proof.
  apply (handle_map_settles (Demo.box_host true) defaults
           (Demo.clicked (266 # 10) (-807 # 10)) 1%Z).
  right. right. reflexivity.
Defined.

(** If the bare [except:] intercepts the rerun of an accepted polygon, a
    payload that carries both a polygon and a click, each inside the region
    and at different latitudes, is never settled: from a session whose stored
    latitude is not the centroid's, every run accepts the polygon, then the
    click, and ends in a rerun before the survey column, leaving a session of
    the same kind. *)
Theorem polygon_and_click_rerun_forever (h : host) (s : session)
    (md : option map_data) (w : widgets) (g : geometry)
    (lonG latG area_m2 lonP latP : Q) :
  bare_except_traps_rerun h = true ->
  last_polygon_geometry md = Some g ->
  shape_centroid h g = Some (lonG, latG) ->
  region_contains h lonG latG = true ->
  projected_area h g = Some area_m2 ->
  click_point md = Some (lonP, latP) ->
  region_contains h lonP latP = true ->
  differs (Some latG) latP = true ->
  differs (clicked_lat s) latG = true ->
  exists s', script_run h s md w = Rerun s'
    /\ step s' = 2%Z
    /\ clicked_lat s' = Some latP
    /\ differs (clicked_lat s') latG = true.
Proof.
  intros Ht Hg Hc HinG Ha Hp HinP Hne Hd.
  exists (click_selected h latP lonP s).
  assert (Hrun : handle_map h s md = Rerun (click_selected h latP lonP s)).
  { rewrite handle_map_eq, Hg, polygon_block_eq, Hc, Hd, HinG, Ha, Ht. cbn [andb].
    rewrite handle_click_eq, Hp, HinP, clicked_lat_polygon_selected, Hne. cbn [andb].
    now rewrite click_selected_absorbs_polygon. }
  split; [unfold script_run; now rewrite Hrun |].
  split; [apply step_click_selected |].
  rewrite clicked_lat_click_selected. split; [reflexivity |].
  now rewrite differs_sym.
Qed.

Lemma polygon_and_click_rerun_forever_witness :
  let h := Demo.box_host true in
  let md := Demo.drawn Demo.field_12_7ha (Some {| lat := 266 # 10; lng := -807 # 10 |}) in
  exists s', script_run h defaults md (Demo.press ForwardButton) = Rerun s'
    /\ step s' = 2%Z
    /\ clicked_lat s' = Some (266 # 10)
    /\ differs (clicked_lat s') (5321 # 200) = true.
Proof.
  apply (polygon_and_click_rerun_forever (Demo.box_host true) defaults _ _
           Demo.field_12_7ha (-16139873 # 200000) (5321 # 200) 127000
           (-807 # 10) (266 # 10)); reflexivity.
Defined.

(** ** Survey column *)

Lemma go_to_step3_cases w s :
  exists ph som,
    go_to_step3 w s = Py.Ok (set_step 3 (set_display ph som s))
    /\ ((has_test w = false /\ ph = 65 # 10 /\ som = est_som s)
        \/ (has_test w = true /\ In ph [5; 6; 7; 8]
            /\ In som [Some 30; Some 55; Some (775 # 10)])).
Proof.
  unfold go_to_step3. destruct (has_test w).
  - unfold first_key_in, ph_map, som_map. cbn [List.filter fst].
    destruct (is_substring "Below" (ph_choice w));
      [| destruct (is_substring "5.5" (ph_choice w));
         [| destruct (is_substring "6.5" (ph_choice w));
            [| destruct (is_substring "Above" (ph_choice w))]]];
    (destruct (is_substring "Low" (som_choice w));
      [| destruct (is_substring "Moderate" (som_choice w));
         [| destruct (is_substring "High" (som_choice w))]]);
    cbn; eexists; eexists; (split; [reflexivity |]); right; cbn; tauto.
  - cbn. eexists. eexists. split; [reflexivity |]. left. tauto.
Qed.

Lemma survey_column_cases w s :
  session_after (survey_column w s) = s
  \/ (pressed w = BackButton /\ (2 <= step s <= 4)%Z
      /\ session_after (survey_column w s) = set_step (step s - 1) s)
  \/ (pressed w = ForwardButton /\ step s = 2%Z
      /\ exists s', go_to_step3 w s = Py.Ok s' /\ session_after (survey_column w s) = s')
  \/ (pressed w = ForwardButton /\ step s = 3%Z
      /\ session_after (survey_column w s) = set_step 4 s)
  \/ (pressed w = ForwardButton /\ step s = 4%Z
      /\ session_after (survey_column w s)
         = set_step 5 (set_saved_farm_size (input_size w)
                         (set_selected_crop (crop_choice w) s)))
  \/ (pressed w = RestartButton /\ step s = 5%Z
      /\ session_after (survey_column w s) = reset_survey s).
Proof.
  unfold survey_column.
  destruct (Z.eqb_spec (step s) 1); [now left |].
  destruct (Z.eqb_spec (step s) 2) as [E |].
  { destruct (stage2_header s); [| now left].
    unfold navigation_buttons. destruct (pressed w) eqn:Ew; try (now left).
    - right. left. rewrite E. split; [reflexivity |]. split; [lia | reflexivity].
    - destruct (go_to_step3_cases w s) as (ph & som & Hrun & _). rewrite Hrun.
      right. right. left. split; [reflexivity |]. split; [exact E |].
      eexists. split; reflexivity. }
  destruct (Z.eqb_spec (step s) 3) as [E |].
  { destruct (stage3_diagnostics s); [| now left].
    unfold navigation_buttons. destruct (pressed w) eqn:Ew; try (now left).
    - right. left. rewrite E. split; [reflexivity |]. split; [lia | reflexivity].
    - right. right. right. left. now repeat split. }
  destruct (Z.eqb_spec (step s) 4) as [E |].
  { destruct (number_input_check (default_size s)); [| now left].
    unfold navigation_buttons, commit_plan. destruct (pressed w) eqn:Ew; try (now left).
    - right. left. rewrite E. split; [reflexivity |]. split; [lia | reflexivity].
    - right. right. right. right. left. now repeat split. }
  destruct (Z.eqb_spec (step s) 5) as [E |]; [| now left].
  destruct (stage5_results s); [| now left].
  destruct (pressed w) eqn:Ew; try (now left).
  right. right. right. right. right. now repeat split.
Qed.

(** The survey column moves the stage only along the edges of the workflow:
    back by one from stages 2 to 4, forward by one from stages 2 to 4, and
    from stage 5 to stage 1 by a restart; otherwise the session is left as it
    is.  Back and the stage-3 forward write the stage only; the stage-2
    forward writes the stage and the two display values; the stage-4 forward
    writes the stage, the crop and the farm size. *)
Theorem survey_column_edges (w : widgets) (s : session) :
  session_after (survey_column w s) = s
  \/ (pressed w = BackButton /\ (2 <= step s <= 4)%Z
      /\ session_after (survey_column w s) = set_step (step s - 1) s)
  \/ (pressed w = ForwardButton /\ step s = 2%Z
      /\ exists ph som,
           session_after (survey_column w s) = set_step 3 (set_display ph som s))
  \/ (pressed w = ForwardButton /\ step s = 3%Z
      /\ session_after (survey_column w s) = set_step 4 s)
  \/ (pressed w = ForwardButton /\ step s = 4%Z
      /\ session_after (survey_column w s)
         = set_step 5 (set_saved_farm_size (input_size w)
                         (set_selected_crop (crop_choice w) s)))
  \/ (pressed w = RestartButton /\ step s = 5%Z
      /\ session_after (survey_column w s) = reset_survey s).
Proof.
  destruct (survey_column_cases w s) as [H | [H | [H | H]]]; try tauto.
  destruct H as (Hw & Hs & s' & Hgo & Hs').
  destruct (go_to_step3_cases w s) as (ph & som & Hrun & _).
  right. right. left. repeat split; try assumption.
  exists ph, som. congruence.
Qed.

(** ** Invariants of the stored selection *)

Lemma coherent_defaults h : coherent h defaults.
Proof.
  constructor; cbn; try lia.
  - left. tauto.
  - left. tauto.
Qed.

Lemma coherent_click_selected h lat lon s :
  coherent h s -> region_contains h lon lat = true ->
  coherent h (click_selected h lat lon s).
Proof.
  intros [Hsel Hmode Hdisp Hkey] Hin. unfold click_selected.
  destruct (soil_metrics (rng h) lat lon) as [som depth] eqn:E.
  constructor; cbn; try lia; try assumption.
  - right. exists lat, lon. rewrite E. now repeat split.
  - left. tauto.
Qed.

Lemma coherent_polygon_selected h lat lon a s :
  coherent h s -> region_contains h lon lat = true ->
  coherent h (polygon_selected h lat lon a s).
Proof.
  intros [Hsel Hmode Hdisp Hkey] Hin. unfold polygon_selected.
  destruct (soil_metrics (rng h) lat lon) as [som depth] eqn:E.
  constructor; cbn; try lia; try assumption.
  - right. exists lat, lon. rewrite E. now repeat split.
  - right. split; [reflexivity | eauto].
Qed.

Lemma coherent_handle_map h s md :
  coherent h s -> coherent h (session_after (handle_map h s md)).
Proof.
  intros Hc.
  destruct (handle_map_cases h s md) as [-> | (lat & lon & Hin & [-> | [a ->]])].
  - exact Hc.
  - now apply coherent_click_selected.
  - now apply coherent_polygon_selected.
Qed.

Lemma coherent_set_step h s v :
  coherent h s -> (3 <= v -> 3 <= step s)%Z -> coherent h (set_step v s).
Proof.
  intros [Hsel Hmode Hdisp Hkey] Hv. constructor; cbn; auto.
Qed.

Lemma coherent_survey_column h w s :
  coherent h s -> coherent h (session_after (survey_column w s)).
Proof.
  intros Hc.
  destruct (survey_column_cases w s)
    as [-> | [(_ & Hs & ->) | [(_ & Hs & s' & Hgo & ->) | [(_ & Hs & ->)
       | [(_ & Hs & ->) | (_ & Hs & ->)]]]]].
  - exact Hc.
  - apply coherent_set_step; [exact Hc | lia].
  - destruct (go_to_step3_cases w s) as (ph & som & Hrun & Hval).
    rewrite Hrun in Hgo. injection Hgo as <-.
    destruct Hc as [Hsel Hmode Hdisp Hkey]. constructor; cbn; try assumption.
    intros _. destruct Hval as [(_ & -> & ->) | (_ & Hph & Hsom)]; [now left | now right].
  - apply coherent_set_step; [exact Hc | lia].
  - destruct Hc as [Hsel Hmode Hdisp Hkey]. constructor; cbn; try assumption.
    intros _. apply Hdisp. lia.
  - constructor; cbn; try lia.
    + left. tauto.
    + left. tauto.
    + destruct Hc. lia.
Qed.

Lemma reachable_coherent h s : reachable h s -> coherent h s.
Proof.
  induction 1 as [| s md w _ IH Hw].
  - apply coherent_defaults.
  - unfold script_run.
    pose proof (coherent_handle_map h s md IH) as Hm.
    destruct (handle_map h s md) as [s1 | s1 | e s1]; cbn [session_after] in Hm |- *.
    + now apply coherent_survey_column.
    + exact Hm.
    + exact Hm.
Qed.

(** In every reachable session at stage 2 or later the stored point lies
    inside the region, and the stored soil estimate is the estimate of the
    stored point: no transition leaves a stale estimate behind. *)
Theorem estimate_matches_selection (h : host) (s : session) :
  reachable h s -> (2 <= step s)%Z ->
  exists la lo,
    clicked_lat s = Some la /\ clicked_lon s = Some lo
    /\ region_contains h lo la = true
    /\ est_som s = Some (fst (soil_metrics (rng h) la lo))
    /\ est_depth s = Some (snd (soil_metrics (rng h) la lo)).
Proof.
  intros Hr H2.
  destruct (inv_located s (reachable_invariant h s Hr) H2) as ([la Hla] & _).
  destruct (coh_selection h s (reachable_coherent h s Hr))
    as [(Hn & _) | (la' & lo & H)]; [congruence |].
  now exists la', lo.
Qed.

Lemma estimate_matches_selection_witness :
  let h := Demo.box_host true in
  let s := Demo.play h defaults to_stage5 in
  exists la lo,
    clicked_lat s = Some la /\ clicked_lon s = Some lo
    /\ region_contains h lo la = true
    /\ est_som s = Some (fst (soil_metrics (rng h) la lo))
    /\ est_depth s = Some (snd (soil_metrics (rng h) la lo)).
Proof.
  apply (estimate_matches_selection (Demo.box_host true)).
  - apply play_reachable; [apply reachable_init | apply to_stage5_valid].
  - vm_compute. discriminate.
Defined.

(** In every reachable session the selection mode is "polygon" exactly when
    a drawn area is stored: either the mode is "point" and there is no area,
    or the mode is "polygon" and there is one. *)
Theorem selection_mode_matches_area (h : host) (s : session) :
  reachable h s ->
  (selection_mode s = "point"%string /\ drawn_area_ha s = None)
  \/ (selection_mode s = "polygon"%string /\ is_Some (drawn_area_ha s)).
Proof. intros Hr. exact (coh_mode h s (reachable_coherent h s Hr)). Qed.

Lemma selection_mode_matches_area_witness :
  let s := Demo.play (Demo.box_host true) defaults (draw_to_stage4 Demo.field_12_7ha) in
  (selection_mode s = "point"%string /\ drawn_area_ha s = None)
  \/ (selection_mode s = "polygon"%string /\ is_Some (drawn_area_ha s)).
Proof.
  apply (selection_mode_matches_area (Demo.box_host true)).
  apply play_reachable; [apply reachable_init | apply draw_to_stage4_valid].
Defined.

(** In every reachable session at stage 3 or later the displayed values are
    either pH 6.5 with the organic matter estimated for the current
    selection, or a declared pair: pH one of 5, 6, 7, 8 with organic matter
    one of 30, 55, 77.5. *)
Theorem display_values_current (h : host) (s : session) :
  reachable h s -> (3 <= step s)%Z ->
  (display_ph s = 65 # 10 /\ display_som s = est_som s)
  \/ (In (display_ph s) [5; 6; 7; 8]
      /\ In (display_som s) [Some 30; Some 55; Some (775 # 10)]).
Proof. intros Hr. exact (coh_display h s (reachable_coherent h s Hr)). Qed.

Lemma display_values_current_witness :
  let s := Demo.play (Demo.box_host true) defaults to_stage5 in
  (display_ph s = 65 # 10 /\ display_som s = est_som s)
  \/ (In (display_ph s) [5; 6; 7; 8]
      /\ In (display_som s) [Some 30; Some 55; Some (775 # 10)]).
Proof.
  apply (display_values_current (Demo.box_host true)).
  - apply play_reachable; [apply reachable_init | apply to_stage5_valid].
  - vm_compute. discriminate.
Defined.

Lemma handle_map_map_key h s md :
  map_key (session_after (handle_map h s md)) = map_key s.
Proof.
  destruct (handle_map_cases h s md) as [-> | (lat & lon & _ & [-> | [a ->]])].
  - reflexivity.
  - apply same_survey_fields_click_selected.
  - apply same_survey_fields_polygon_selected.
Qed.

(** The reset counter never decreases: a run leaves it as it is, or adds one
    when the restart button was pressed and the session ends at stage 1. *)
Theorem map_key_counts_restarts (h : host) (s : session) (md : option map_data)
    (w : widgets) :
  let s' := session_after (script_run h s md w) in
  map_key s' = map_key s
  \/ (map_key s' = (map_key s + 1)%Z /\ pressed w = RestartButton /\ step s' = 1%Z).
Proof.
  cbv zeta. unfold script_run.
  pose proof (handle_map_map_key h s md) as Hk.
  destruct (handle_map h s md) as [s1 | s1 | e s1]; cbn [session_after] in Hk |- *;
    try (now left).
  destruct (survey_column_cases w s1)
    as [-> | [(_ & _ & ->) | [(_ & _ & s' & Hgo & ->) | [(_ & _ & ->)
       | [(_ & _ & ->) | (Hw & _ & ->)]]]]]; try (now left).
  - destruct (go_to_step3_cases w s1) as (ph & som & Hrun & _).
    rewrite Hrun in Hgo. injection Hgo as <-. now left.
  - right. cbn. rewrite Hk. now repeat split.
Qed.

(** A run in which no button is pressed and whose payload is already settled
    leaves the session exactly as it was: rendering a stage never writes the
    session. *)
Theorem idle_run_leaves_session (h : host) (s : session) (md : option map_data)
    (w : widgets) :
  handle_map h s md = Completed s -> pressed w = NoButton ->
  session_after (script_run h s md w) = s.
Proof.
  intros Hm Hw. unfold script_run. rewrite Hm.
  destruct (survey_column_cases w s)
    as [H | [(Hp & _) | [(Hp & _) | [(Hp & _) | [(Hp & _) | (Hp & _)]]]]];
    [exact H | congruence ..].
Qed.

Lemma idle_run_leaves_session_witness :
  let h := Demo.box_host true in
  let s := Demo.play h defaults to_stage5 in
  session_after (script_run h s (Demo.clicked (266 # 10) (-807 # 10)) Demo.idle) = s.
Proof.
  apply (idle_run_leaves_session (Demo.box_host true)
           (Demo.play (Demo.box_host true) defaults to_stage5)
           (Demo.clicked (266 # 10) (-807 # 10)) Demo.idle).
  - vm_compute. reflexivity.
  - reflexivity.
Defined.

(** ** The farm-size input at stage 4 *)

Lemma int_below_1 a : 0 < a -> a < 1 -> Py.int a = 0%Z.
Proof.
  destruct a as [n d]. unfold Qlt, Py.int. cbn [Qnum Qden]. intros H0 H1.
  apply Z.quot_small. lia.
Qed.

(** A drawn area strictly between 0 and 1 hectare makes stage 4 unusable:
    the farm-size default is 0, the number input refuses it, and every run
    of the survey column ends in that exception with the session unchanged,
    whatever button is pressed. *)
Theorem small_field_blocks_stage4 (w : widgets) (s : session) (a : Q) :
  step s = 4%Z -> drawn_area_ha s = Some a -> 0 < a -> a < 1 ->
  default_size s = 0%Z
  /\ survey_column w s = Crashed Py.ValueBelowMin s.
Proof.
  intros Hs Ha H0 H1.
  assert (Hd : default_size s = 0%Z).
  { unfold default_size. rewrite Ha. unfold Py.truthy.
    destruct (PyFacts.eqb_spec a 0) as [E | _].
    - rewrite E in H0. discriminate H0.
    - cbn [negb]. now rewrite (int_below_1 a H0 H1). }
  split; [exact Hd |].
  unfold survey_column. rewrite Hs, Hd. reflexivity.
Qed.

Lemma small_field_blocks_stage4_witness :
  let s := Demo.play (Demo.box_host true) defaults (draw_to_stage4 Demo.field_0_4ha) in
  default_size s = 0%Z
  /\ survey_column (Demo.press ForwardButton) s = Crashed Py.ValueBelowMin s.
Proof.
  apply (small_field_blocks_stage4 (Demo.press ForwardButton)
           (Demo.play (Demo.box_host true) defaults (draw_to_stage4 Demo.field_0_4ha))
           (4 # 10)).
  - vm_compute. reflexivity.
  - vm_compute. reflexivity.
  - reflexivity.
  - reflexivity.
Defined.

(** ** The stage-5 figures *)

Lemma base_credits_of_positive crop b :
  base_credits_of crop = Py.Ok b -> 0 < b.
Proof.
  unfold base_credits_of, crop_data. cbn [List.filter crop_name].
  repeat match goal with
         | |- context [String.eqb ?a crop] => destruct (String.eqb a crop)
         end; intros [= <-]; reflexivity.
Qed.

Lemma stage5_results_value s b depth som :
  invariant s -> (2 <= step s)%Z ->
  base_credits_of (selected_crop s) = Py.Ok b ->
  est_depth s = Some depth -> display_som s = Some som ->
  stage5_results s
  = Py.Ok (calculate_carbon_impact b (inject_Z (saved_farm_size s)) (inject_Z depth) som,
           calculate_carbon_impact b (inject_Z (saved_farm_size s)) (inject_Z depth) som
           / inject_Z (saved_farm_size s) / (46 # 10)).
Proof.
  intros Hinv H2 Hb Hd Hsom.
  destruct (inv_located s Hinv H2) as ([la Hla] & _).
  pose proof (inv_size s Hinv) as Hsize.
  unfold stage5_results. cbn zeta beta iota.
  rewrite Hb, Hd, Hsom, Hla. cbn [Py.bind need].
  rewrite cars_offset_per_ha_positive by lia.
  now destruct (String.eqb _ _).
Qed.

Lemma scaled_between x u v lu lv :
  0 <= x -> 0 <= lu -> lu <= u -> u <= 1 -> 0 <= lv -> lv <= v -> v <= 1 ->
  lu * lv * x <= x * u * v /\ x * u * v <= x.
Proof.
  intros Hx Hlu Hu Hu1 Hlv Hv Hv1.
  assert (H1 : x * lu <= x * u) by nra.
  assert (H2 : x * u <= x) by nra.
  assert (H3 : 0 <= x * lu) by nra.
  assert (H4 : 0 <= x * u) by nra.
  assert (H5 : x * lu * lv <= x * u * lv) by nra.
  assert (H6 : x * u * lv <= x * u * v) by nra.
  assert (H7 : x * u * v <= x * u) by nra.
  split; [| lra].
  apply Qle_trans with (x * lu * lv); [| lra].
  apply Qle_lteq. right. ring.
Qed.

Lemma depth_factor_estimated depth :
  (15 <= depth)%Z -> 1 # 2 <= depth_factor (inject_Z depth).
Proof.
  intros H. apply PyFacts.min_glb; [| discriminate].
  apply Qle_shift_div_l; [reflexivity |]. unfold Qle. simpl. lia.
Qed.

Lemma som_factor_estimated som : 25 <= som -> 5 # 12 <= som_factor som.
Proof.
  intros H. apply PyFacts.min_glb; [| discriminate].
  apply Qle_shift_div_l; [reflexivity |]. lra.
Qed.

(** With a generator that keeps to its ranges, in every reachable session at
    stage 3 or later the results computed for stage 5 exist, the adjusted
    credits lie between 5/24 of base * size and base * size, and the cars
    figure is the adjusted credits / size / 4.6. *)
Theorem stage5_credits_bounds (h : host) (s : session) :
  rng_contract (rng h) -> reachable h s -> (3 <= step s)%Z ->
  exists base adj cars,
    base_credits_of (selected_crop s) = Py.Ok base
    /\ stage5_results s = Py.Ok (adj, cars)
    /\ (5 # 24) * (base * inject_Z (saved_farm_size s)) <= adj
    /\ adj <= base * inject_Z (saved_farm_size s)
    /\ cars == adj / inject_Z (saved_farm_size s) / (46 # 10).
Proof.
  intros Hrng Hr H3.
  pose proof (reachable_invariant h s Hr) as Hinv.
  pose proof (reachable_coherent h s Hr) as Hcoh.
  destruct (base_credits_of_listed _ (inv_crop s Hinv)) as [b Hb].
  pose proof (base_credits_of_positive _ _ Hb) as Hbpos.
  pose proof (inv_size s Hinv) as Hsize.
  destruct (inv_located s Hinv ltac:(lia)) as ([la Hla] & _).
  destruct (coh_selection h s Hcoh) as [(Hn & _) | (la' & lo & _ & _ & _ & Hsom & Hdepth)];
    [congruence |].
  pose proof (soil_metrics_ranges (rng h) la' lo Hrng) as (Hs1 & Hs2 & Hd).
  set (depth := snd (soil_metrics (rng h) la' lo)) in *.
  assert (Hdisp : exists som, display_som s = Some som /\ 25 <= som).
  { destruct (coh_display h s Hcoh H3) as [(_ & E) | (_ & Hin)].
    - rewrite E, Hsom. eauto.
    - cbn [In] in Hin. destruct Hin as [<- | [<- | [<- | []]]]; eexists;
        (split; [reflexivity | discriminate]). }
  destruct Hdisp as (som & Hdsom & Hsom25).
  exists b. eexists. eexists. split; [exact Hb |].
  split;
    [apply (stage5_results_value s b depth som);
       [exact Hinv | lia | exact Hb | exact Hdepth | exact Hdsom] |].
  rewrite calculate_carbon_impact_factors.
  assert (Hx : 0 <= b * inject_Z (saved_farm_size s)).
  { apply Qmult_le_0_compat; [lra |]. unfold Qle. simpl. lia. }
  pose proof (scaled_between _ _ _ (1 # 2) (5 # 12) Hx ltac:(discriminate)
                (depth_factor_estimated depth ltac:(lia)) (depth_factor_le_1 _)
                ltac:(discriminate) (som_factor_estimated som Hsom25)
                (som_factor_le_1 _)) as [Hlo Hhi].
  split; [| split; [exact Hhi | reflexivity]].
  eapply Qle_trans; [| exact Hlo]. apply Qle_lteq. right. ring.
Qed.

Lemma stage5_credits_bounds_witness :
  let s := Demo.play (Demo.box_host true) defaults to_stage5 in
  exists base adj cars,
    base_credits_of (selected_crop s) = Py.Ok base
    /\ stage5_results s = Py.Ok (adj, cars)
    /\ (5 # 24) * (base * inject_Z (saved_farm_size s)) <= adj
    /\ adj <= base * inject_Z (saved_farm_size s)
    /\ cars == adj / inject_Z (saved_farm_size s) / (46 # 10).
Proof.
  apply (stage5_credits_bounds (Demo.box_host true)).
  - exact lcg_contract.
  - apply play_reachable; [apply reachable_init | apply to_stage5_valid].
  - vm_compute. discriminate.
Defined.

(** ** Declared soil categories *)

(** The stage-2 forward step never raises: whatever the widgets hold, it
    moves to stage 3 and writes only the two display values.  Without test
    results these are pH 6.5 and the estimated organic matter; with test
    results they are one of 5, 6, 7, 8 and one of 30, 55, 77.5, and a choice
    that contains none of the keys falls back to pH 7 and organic matter
    55. *)
Theorem go_to_step3_total (w : widgets) (s : session) :
  exists ph som,
    go_to_step3 w s = Py.Ok (set_step 3 (set_display ph som s))
    /\ ((has_test w = false /\ ph = 65 # 10 /\ som = est_som s)
        \/ (has_test w = true /\ In ph [5; 6; 7; 8]
            /\ In som [Some 30; Some 55; Some (775 # 10)]))
    /\ (has_test w = true ->
        (forall k, In k (List.map fst ph_map) -> is_substring k (ph_choice w) = false) ->
        ph = 7)
    /\ (has_test w = true ->
        (forall k, In k (List.map fst som_map) -> is_substring k (som_choice w) = false) ->
        som = Some 55).
Proof.
  unfold go_to_step3. destruct (has_test w).
  - unfold first_key_in, ph_map, som_map. cbn [List.filter fst List.map In].
    destruct (is_substring "Below" (ph_choice w)) eqn:P1;
      [| destruct (is_substring "5.5" (ph_choice w)) eqn:P2;
         [| destruct (is_substring "6.5" (ph_choice w)) eqn:P3;
            [| destruct (is_substring "Above" (ph_choice w)) eqn:P4]]];
    (destruct (is_substring "Low" (som_choice w)) eqn:S1;
      [| destruct (is_substring "Moderate" (som_choice w)) eqn:S2;
         [| destruct (is_substring "High" (som_choice w)) eqn:S3]]);
    cbn; eexists; eexists; (split; [reflexivity |]);
    (split; [right; cbn; tauto |]);
    (split; intros _ Hno; try reflexivity; exfalso;
     repeat match goal with
            | E : is_substring ?k _ = true |- _ =>
                rewrite (Hno k) in E by tauto; discriminate E
            end).
  - cbn. eexists. eexists. split; [reflexivity |]. split; [left; tauto |].
    split; discriminate.
Qed.

(** Every option of the two stage-2 select boxes is mapped to the midpoint
    of its own category (the first key contained in the option decides), and
    the stage-3 diagnostics then label that midpoint with the band the option
    names: the i-th pH option gives the i-th of 5, 6, 7, 8 and the i-th pH
    band, the j-th organic-matter option the j-th of 30, 55, 77.5 and the
    j-th organic-matter band. *)
Theorem declared_category_round_trip (w : widgets) (s : session) (i j : nat) (depth : Z) :
  has_test w = true ->
  nth_error ph_options i = Some (ph_choice w) ->
  nth_error som_options j = Some (som_choice w) ->
  est_depth s = Some depth ->
  exists s' som_label ph_label depth_label,
    go_to_step3 w s = Py.Ok s'
    /\ nth_error ph_midpoints i = Some (display_ph s')
    /\ option_map Some (nth_error som_midpoints j) = Some (display_som s')
    /\ stage3_diagnostics s' = Py.Ok (som_label, ph_label, depth_label)
    /\ nth_error ph_bands i = Some (fst ph_label)
    /\ nth_error som_bands j = Some (fst som_label).
Proof.
  intros Hh Hi Hj Hd. unfold go_to_step3, stage3_diagnostics. rewrite Hh.
  destruct i as [| [| [| [| i]]]]; cbn in Hi; try (destruct i; discriminate Hi);
    injection Hi as Hi; rewrite <- Hi;
    (destruct j as [| [| [| j]]]; cbn in Hj; try (destruct j; discriminate Hj);
     injection Hj as Hj; rewrite <- Hj);
    vm_compute first_key_in; cbn [dict_item ph_map som_map List.filter fst String.eqb
                                  Ascii.eqb Bool.eqb Py.bind];
    eexists; eexists; eexists; eexists;
    (split; [reflexivity |]); cbn [display_ph display_som est_depth set_step set_display];
    rewrite Hd; cbn [need Py.bind];
    repeat split.
Qed.

Lemma declared_category_round_trip_witness :
  let w := {| pressed := ForwardButton; has_test := true;
              ph_choice := "Slightly Acidic (5.5–6.5)";
              som_choice := "High (Above 70%)";
              input_size := 100; recommend := false; crop_choice := "Sugarcane" |} in
  let s := Demo.play (Demo.box_host true) defaults
             [(Demo.clicked (266 # 10) (-807 # 10), Demo.idle)] in
  exists s' som_label ph_label depth_label,
    go_to_step3 w s = Py.Ok s'
    /\ nth_error ph_midpoints 1 = Some (display_ph s')
    /\ option_map Some (nth_error som_midpoints 2) = Some (display_som s')
    /\ stage3_diagnostics s' = Py.Ok (som_label, ph_label, depth_label)
    /\ nth_error ph_bands 1 = Some (fst ph_label)
    /\ nth_error som_bands 2 = Some (fst som_label).
Proof.
  apply (declared_category_round_trip _ _ 1%nat 2%nat 124%Z); reflexivity.
Defined.

(** ** Management protocols *)

(** Every crop name, known or not, gets at least one and at most four
    protocols; the three cover crops share one list; and among the eight
    crops of the table the only one left with the single generic protocol is
    Turf Grass. *)
Theorem get_crop_recommendations_cases :
  (forall crop, (1 <= length (get_crop_recommendations crop) <= 4)%nat)
  /\ (forall c c', In c cover_crops -> In c' cover_crops ->
        get_crop_recommendations c = get_crop_recommendations c')
  /\ (forall crop, In crop crop_names ->
        (length (get_crop_recommendations crop) = 1%nat <-> crop = "Turf Grass"%string)).
Proof.
  split; [| split].
  - intros crop. unfold get_crop_recommendations, cover_crops, recs.
    cbn [existsb List.find fst].
    repeat match goal with
           | |- context [String.eqb ?a ?b] => destruct (String.eqb a b)
           end; cbn; lia.
  - unfold cover_crops. cbn [In]. intros c c' Hc Hc'.
    repeat (destruct Hc as [<- | Hc]); try contradiction;
      repeat (destruct Hc' as [<- | Hc']); try contradiction; reflexivity.
  - unfold crop_names, crop_data. cbn [List.map crop_name In]. intros crop H.
    repeat (destruct H as [<- | H]); try contradiction;
      vm_compute; split; intros E; try reflexivity; discriminate E.
Qed.

Lemma get_crop_recommendations_cases_witness :
  get_crop_recommendations "Sunn Hemp" = get_crop_recommendations "Cowpea".
Proof.
  apply (proj1 (proj2 get_crop_recommendations_cases)); cbn; tauto.
Defined.

(** ** Soil alert *)

Lemma som_factor_no_alert som : 40 <= som -> 2 # 3 <= som_factor som.
Proof.
  intros H. apply PyFacts.min_glb; [| discriminate].
  apply Qle_shift_div_l; [reflexivity |]. lra.
Qed.

(** The stage-3 soil alert is shown exactly when the depth is labelled Very
    Low or the organic matter Low; when it is not shown, the depth factor of
    the carbon model is 1 and, for a non-negative coefficient and size, the
    adjusted credits are at least two thirds of base * size. *)
Theorem soil_alert_meaning (b f som : Q) (depth : Z) :
  (soil_alert som depth = true
   <-> fst (classify_depth depth) = "⚠ Very Low Depth"%string
       \/ fst (classify_som som) = "⚠ Low Organic Matter"%string)
  /\ (soil_alert som depth = false -> 0 <= b -> 0 <= f ->
      depth_factor (inject_Z depth) == 1
      /\ (2 # 3) * (b * f) <= calculate_carbon_impact b f (inject_Z depth) som).
Proof.
  unfold soil_alert, classify_depth, classify_som. split.
  - destruct (depth <? 30)%Z; cbn [orb fst]; [tauto |].
    destruct (Py.ltb som 40); cbn [fst]; [tauto |].
    split; [discriminate |].
    destruct ((30 <=? depth)%Z && (depth <=? 100)%Z),
             (Py.leb 40 som && Py.leb som 70); cbn [fst]; intros [E | E]; discriminate E.
  - destruct (Z.ltb_spec depth 30) as [| Hd]; [discriminate |].
    destruct (PyFacts.ltb_spec som 40) as [| Hs]; [discriminate |].
    intros _ Hb Hf.
    assert (E : depth_factor (inject_Z depth) == 1).
    { apply depth_factor_saturated. unfold Qle. simpl. lia. }
    split; [exact E |].
    rewrite calculate_carbon_impact_factors, E.
    assert (Hx : 0 <= b * f) by now apply Qmult_le_0_compat.
    pose proof (som_factor_no_alert som ltac:(lra)) as Hsf.
    nra.
Qed.

Lemma soil_alert_meaning_witness :
  depth_factor (inject_Z 45) == 1
  /\ (2 # 3) * ((675 # 100) * 100)
     <= calculate_carbon_impact (675 # 100) 100 (inject_Z 45) 50.
Proof.
  apply (proj2 (soil_alert_meaning (675 # 100) 100 50 45));
    [reflexivity | discriminate | discriminate].
Defined.

Lemma low_depth_band_iff_reduced_witness : depth_factor (inject_Z 20) < 1.
Proof. apply (proj1 (low_depth_band_iff_reduced 20)). reflexivity. Defined.

Lemma base_credits_of_table_witness :
  base_credits_of "Lettuce" = Py.Ok (321 # 100).
Proof.
  apply (proj1 (proj2 base_credits_of_table)
           {| crop_name := "Lettuce"; carbon_credits := 321 # 100;
              co2_released := 192 # 100 |}).
  cbn. tauto.
Defined.

Lemma go_to_step3_total_witness :
  let w := {| pressed := ForwardButton; has_test := true;
              ph_choice := "unknown"; som_choice := "unknown";
              input_size := 100; recommend := false; crop_choice := "Sugarcane" |} in
  go_to_step3 w defaults = Py.Ok (set_step 3 (set_display 7 (Some 55) defaults)).
Proof.
  cbv zeta.
  destruct (go_to_step3_total
              {| pressed := ForwardButton; has_test := true;
                 ph_choice := "unknown"; som_choice := "unknown";
                 input_size := 100; recommend := false; crop_choice := "Sugarcane" |}
              defaults) as (ph & som & Hrun & _ & Hph & Hsom).
  rewrite Hrun.
  rewrite (Hph eq_refl), (Hsom eq_refl); [reflexivity | |];
    cbn [List.map fst ph_map som_map In ph_choice som_choice];
    intros k H; repeat (destruct H as [<- | H]; [reflexivity |]); destruct H.
Defined.

(** ** Runs on the payload as delivered *)

Lemma handle_raw_map_typed h s md :
  session_after (handle_raw_map h s md) = session_after (handle_map h s (typed_of md))
  /\ (forall s1, handle_raw_map h s md = Completed s1 ->
      handle_map h s (typed_of md) = Completed s1)
  /\ (raw_well_shaped md = true ->
      handle_raw_map h s md = handle_map h s (typed_of md)).
Proof.
  unfold handle_raw_map, handle_map, raw_last_polygon, last_polygon_geometry,
    raw_well_shaped, typed_of.
  destruct md as [md |]; [| now repeat split].
  assert (Hclick : forall s0 ds,
    session_after (raw_handle_click h s0 (Some md))
    = session_after
        (handle_click h s0
           (Some {| all_drawings := ds;
                    last_clicked :=
                      match raw_last_clicked md with
                      | ClickObject (CoordinateNumber la) (CoordinateNumber lo) =>
                          Some {| lat := la; lng := lo |}
                      | _ => None
                      end |}))
    /\ (forall s1, raw_handle_click h s0 (Some md) = Completed s1 ->
        handle_click h s0
          (Some {| all_drawings := ds;
                   last_clicked :=
                     match raw_last_clicked md with
                     | ClickObject (CoordinateNumber la) (CoordinateNumber lo) =>
                         Some {| lat := la; lng := lo |}
                     | _ => None
                     end |}) = Completed s1)
    /\ (match raw_last_clicked md with
        | ClickFalsy | ClickObject (CoordinateNumber _) (CoordinateNumber _) => true
        | _ => false
        end = true ->
        raw_handle_click h s0 (Some md)
        = handle_click h s0
            (Some {| all_drawings := ds;
                     last_clicked :=
                       match raw_last_clicked md with
                       | ClickObject (CoordinateNumber la) (CoordinateNumber lo) =>
                           Some {| lat := la; lng := lo |}
                       | _ => None
                       end |}))).
  { intros s0 ds. unfold raw_handle_click, handle_click.
    cbn [last_clicked lat lng].
    destruct (raw_last_clicked md) as [ | | [ | e | la] [ | e' | lo]]; cbn;
      repeat split; intros; (discriminate || congruence || reflexivity). }
  destruct (list.last (raw_all_drawings md)) as [[ | [ | | g]] |];
    cbn [list.last all_drawings drawing_geometry andb session_after].
  - repeat split; (discriminate || reflexivity).
  - apply Hclick.
  - repeat split; (discriminate || reflexivity).
  - destruct (is_polygon_type (geom_type g)); [| apply Hclick].
    destruct (polygon_block h s g) as [[ | | ] s1].
    + now repeat split.
    + apply Hclick.
    + destruct (bare_except_traps_rerun h); [apply Hclick | now repeat split].
  - apply Hclick.
Qed.

Lemma survey_column_idle w s :
  pressed w = NoButton -> session_after (survey_column w s) = s.
Proof.
  intros Hw.
  destruct (survey_column_cases w s)
    as [H | [(Hp & _) | [(Hp & _) | [(Hp & _) | [(Hp & _) | (Hp & _)]]]]];
    [exact H | congruence ..].
Qed.

Lemma reachable_handle_map h s md :
  reachable h s -> reachable h (session_after (handle_map h s md)).
Proof.
  intros Hr.
  pose proof (reachable_run h s md Demo.idle Hr valid_idle) as Hrun.
  unfold script_run in Hrun.
  destruct (handle_map h s md) as [s1 | s1 | e s1]; cbn [session_after] in *;
    [| exact Hrun | exact Hrun].
  now rewrite survey_column_idle in Hrun.
Qed.

(** Runs on delivered payloads reach nothing that runs on well-formed
    payloads do not reach. *)
Lemma reachable_raw_run h s md w :
  reachable h s -> valid_widgets w ->
  reachable h (session_after (script_run_raw h s md w)).
Proof.
  intros Hr Hw. unfold script_run_raw.
  destruct (handle_raw_map_typed h s md) as (Hsess & Hcomp & _).
  pose proof (reachable_handle_map h s (typed_of md) Hr) as Hm.
  destruct (handle_raw_map h s md) as [s1 | s1 | e s1]; cbn [session_after] in *.
  - pose proof (reachable_run h s (typed_of md) w Hr Hw) as Hrun.
    unfold script_run in Hrun. now rewrite (Hcomp s1 eq_refl) in Hrun.
  - now rewrite Hsess.
  - now rewrite Hsess.
Qed.


